(** * Customer data analysis pipeline ([scripts/analyze_data.py])

    A shallow embedding of the analysis script: the seeded generation of
    the customer table, the two CSV files, the two figures and the t-test
    report, followed by the properties of the pipeline.

    Modelling conventions.
    - A [float64] that the script stores in a column is a rational number
      ([Q]): arithmetic is exact.  Values that only statistics can
      produce (not-a-number, the infinities) are explicit constructors of
      [float64].
    - The routines the script imports (numpy's legacy generator, the
      square root, scipy's t-test, the shortest float representation) are
      interfaces: type classes that list the operations with the part of
      their documented contract that the pipeline relies on.  Small
      instances at the end of the definitions show that the contracts can
      be met and let the pipeline run inside Rocq.
    - The script's effects (the global generator state, the files it
      writes, the lines it prints) live in a [World]; a statement of the
      script is a [Py] computation that may raise.
    - A figure is described by what it shows (the plotted columns, the
      matrix and its annotations), not by its pixels.  Lines 10-14, which
      silence warnings and select the non-interactive backend, have no
      counterpart: a warning is not an effect of the model. *)

From Stdlib Require Import ZArith QArith Qminmax Qround Qabs Lia Lqa.
From Stdlib Require Import List String Ascii DecimalString Sorted.
From stdpp Require Import base gmap strings list.

Open Scope string_scope.
Open Scope list_scope.

(* ================================================================== *)
(** * Numbers *)
(* ================================================================== *)

(** The result of a floating-point statistic. *)
Inductive float64 : Type :=
  | Finite (q : Q)
  | PosInf
  | NegInf
  | NaN.

(** [ndarray.clip(lo, hi)], elementwise: [minimum(maximum(x, lo), hi)]. *)
Definition clip (lo hi x : Q) : Q := Qmin (Qmax x lo) hi.

(** Sum and arithmetic mean of a float column ([Series.mean]): the mean
    of an empty series is not-a-number. *)
Definition Qsum (xs : list Q) : Q := fold_right Qplus 0%Q xs.

Definition Qlen (xs : list Q) : Q := inject_Z (Z.of_nat (length xs)).

Definition mean (xs : list Q) : float64 :=
  match xs with
  | [] => NaN
  | _ :: _ => Finite (Qsum xs / Qlen xs)
  end.

(** [x < y] on floats as Python evaluates it: false as soon as an
    operand is not-a-number. *)
Definition float_ltb (x y : float64) : bool :=
  match x, y with
  | NaN, _ | _, NaN => false
  | PosInf, _ => false
  | _, NegInf => false
  | NegInf, _ => true
  | _, PosInf => true
  | Finite a, Finite b => match (a ?= b)%Q with Lt => true | _ => false end
  end.


(* ================================================================== *)
(** * Text: decimal digits and format specifications *)
(* ================================================================== *)

(** [str(n)] for a non-negative and for an arbitrary integer. *)
Definition str_N (n : N) : string := NilZero.string_of_uint (N.to_uint n).
Definition str_Z (z : Z) : string := NilZero.string_of_int (Z.to_int z).
Definition str_nat (n : nat) : string := str_N (N.of_nat n).

(** [c * k]: the character [c] repeated. *)
Fixpoint replicate_char (k : nat) (c : ascii) : string :=
  match k with
  | O => ""
  | S k' => String c (replicate_char k' c)
  end.

(** [sep.join(parts)]. *)
Fixpoint join (sep : string) (parts : list string) : string :=
  match parts with
  | [] => ""
  | [p] => p
  | p :: ps => p +:+ sep +:+ join sep ps
  end.

(** [s.zfill(w)]: pad with zeros on the left up to width [w]. *)
Definition zfill (w : nat) (s : string) : string :=
  replicate_char (w - String.length s) "0" +:+ s.

(** Rounding to the nearest integer, ties to the even one: the rounding
    of Python's fixed-point formatting. *)
Definition round_half_even (x : Q) : Z :=
  let f := Qfloor x in
  match (x - inject_Z f ?= 1 # 2)%Q with
  | Lt => f
  | Gt => (f + 1)%Z
  | Eq => if Z.even f then f else (f + 1)%Z
  end.

(** The digits of a fixed-point number: the rounded magnitude padded to
    at least one integer digit. *)
Definition fixed_digits (d : nat) (q : Q) : string :=
  zfill (S d)
        (str_N (Z.to_N (round_half_even (Qabs q * inject_Z (10 ^ Z.of_nat d))))).

(** The format specification [.{d}f]: sign, integer part and exactly
    [d] decimals ([nan] and [inf] are spelled out). *)
Definition format_f (d : nat) (x : float64) : string :=
  match x with
  | NaN => "nan"
  | PosInf => "inf"
  | NegInf => "-inf"
  | Finite q =>
      let s := fixed_digits d q in
      let k := (String.length s - d)%nat in
      (if Qlt_le_dec q 0 then "-" else "")
      +:+ substring 0 k s
      +:+ (match d with O => "" | S _ => "." +:+ substring k d s end)
  end.

(** The characters of a string. *)
Definition chars (s : string) : list ascii := list_ascii_of_string s.

(** A character that needs no quoting in a CSV field. *)
Definition plain (c : ascii) : Prop :=
  c <> ","%char /\ c <> "010"%char /\ c <> "034"%char.

Definition is_digit (c : ascii) : Prop := In c (chars "0123456789").

(** The characters of a number: digits, the sign and the point. *)
Definition numeric_char (c : ascii) : Prop :=
  is_digit c \/ c = "-"%char \/ c = "."%char.

(** A number in fixed-point notation with [d] decimals: an optional
    minus sign, at least one digit, the point, and [d] digits. *)
Definition fixed_point (d : nat) (s : string) : Prop :=
  exists sign int_part decimals : string,
    s = sign +:+ int_part +:+ "." +:+ decimals
    /\ (sign = "" \/ sign = "-")
    /\ (1 <= String.length int_part)%nat
    /\ String.length decimals = d
    /\ (forall c, In c (chars int_part) -> is_digit c)
    /\ (forall c, In c (chars decimals) -> is_digit c).

(** A string without the character [sep]. *)
Definition free_of (sep : ascii) (s : string) : Prop := ~ In sep (chars s).

(** A field of plain characters, and a record that reads back as
    written: not a blank line, and plain fields only. *)
Definition plain_field (s : string) : Prop := forall c, In c (chars s) -> plain c.

Definition plain_record (r : list string) : Prop :=
  join "," r <> "" /\ Forall plain_field r.

(** A decidable check of plain fields, for the literal names. *)
Definition plain_charb (c : ascii) : bool :=
  negb (Ascii.eqb c ",") && negb (Ascii.eqb c "010") && negb (Ascii.eqb c "034").

Fixpoint plain_fieldb (s : string) : bool :=
  match s with
  | "" => true
  | String c rest => plain_charb c && plain_fieldb rest
  end.

(* ================================================================== *)
(** * The imported routines, as interfaces *)
(* ================================================================== *)

(** numpy's legacy global generator ([np.random.seed], [np.random.normal],
    [np.random.choice]).  A draw is a function of the generator state
    and returns the advanced state: a vector draw has the requested size,
    and [choice] only returns members of the population.  [choice] takes
    the optional probability vector [p]. *)
Class NumpyRandom : Type := {
  rng_state : Type;
  seed : Z -> rng_state;
  normal : Q -> Q -> nat -> rng_state -> list Q * rng_state;
  choice : forall A : Type,
      list A -> nat -> option (list Q) -> rng_state -> list A * rng_state;
  normal_length : forall loc scale size s,
      length (fst (normal loc scale size s)) = size;
  choice_length : forall A (a : list A) size p s,
      a <> [] -> length (fst (choice A a size p s)) = size;
  choice_member : forall A (a : list A) size p s x,
      In x (fst (choice A a size p s)) -> In x a
}.

Arguments choice {_} {A} _ _ _ _.

(** The floating-point routines behind the statistics and the CSV text:
    the square root, which is exact on a square (as a correctly rounded
    square root is), and the shortest representation of a float
    ([repr]), a numeric literal: it holds no field separator, no line
    break and no quote. *)
Class FloatLib : Type := {
  sqrt : Q -> Q;
  float_repr : Q -> string;
  sqrt_square : forall x : Q, (0 <= x)%Q -> (sqrt (x * x) == x)%Q;
  float_repr_plain : forall q : Q, plain_field (float_repr q)
}.

(** [scipy.stats.ttest_ind(a, b, equal_var=...)]: the statistic and the
    two-sided p-value.  With an empty sample the test is undefined and
    scipy returns not-a-number twice (it warns, it does not raise). *)
Class ScipyStats : Type := {
  ttest_ind : list Q -> list Q -> bool -> float64 * float64;
  ttest_ind_empty : forall a b equal_var,
      a = [] \/ b = [] -> ttest_ind a b equal_var = (NaN, NaN)
}.

(* ================================================================== *)
(** * Tables *)
(* ================================================================== *)

(** A column with its dtype: [int64], [float64] or [object] (strings). *)
Inductive Series : Type :=
  | Int64 (xs : list Z)
  | Float64 (xs : list Q)
  | Object (xs : list string).

(** The customer table: the six columns of the script's [data]. *)
Record DataFrame : Type := {
  customer_id : list Z;
  age : list Q;
  income : list Q;
  spending_score : list Q;
  region : list string;
  is_premium : list Z
}.

(** [len(data)]: the number of rows. *)
Definition len (data : DataFrame) : nat := length (customer_id data).

(** The columns as the dictionary of the constructor orders them, each
    with its dtype ([data.items()]). *)
Definition items (data : DataFrame) : list (string * Series) :=
  [ ("customer_id", Int64 (customer_id data));
    ("age", Float64 (age data));
    ("income", Float64 (income data));
    ("spending_score", Float64 (spending_score data));
    ("region", Object (region data));
    ("is_premium", Int64 (is_premium data)) ].

(** [data.columns]. *)
Definition columns (data : DataFrame) : list string := map fst (items data).

(** [range(a, b)]. *)
Definition range (a b : Z) : list Z :=
  map (fun k => (a + Z.of_nat k)%Z) (seq 0 (Z.to_nat (b - a))).

(** Elementwise arithmetic of two float columns on the same index, and
    of a column with a scalar. *)
Definition Series_add (xs ys : list Q) : list Q := zip_with Qplus xs ys.
Definition Series_mul_scalar (xs : list Q) (k : Q) : list Q :=
  map (fun x => (x * k)%Q) xs.
Definition Series_div_scalar (xs : list Q) (k : Q) : list Q :=
  map (fun x => (x / k)%Q) xs.

(** The relationships of lines 33-34: [income] gains [age * 800], then
    [spending_score] gains the new [income / 5000]. *)
Definition add_relationships (data : DataFrame) : DataFrame :=
  let data1 :=
    {| customer_id := customer_id data;
       age := age data;
       income := Series_add (income data) (Series_mul_scalar (age data) 800);
       spending_score := spending_score data;
       region := region data;
       is_premium := is_premium data |} in
  {| customer_id := customer_id data1;
     age := age data1;
     income := income data1;
     spending_score :=
       Series_add (spending_score data1) (Series_div_scalar (income data1) 5000);
     region := region data1;
     is_premium := is_premium data1 |}.

(** The names of the six columns, in the order of the constructor. *)
Definition column_names : list string :=
  ["customer_id"; "age"; "income"; "spending_score"; "region"; "is_premium"].

(** The names of the columns with a numeric dtype. *)
Definition numeric_column_names : list string :=
  ["customer_id"; "age"; "income"; "spending_score"; "is_premium"].

(** Row [i] of the three float columns in terms of the draws. *)
Definition row_age (za : Q) : Q := clip 18 70 za.
Definition row_income (za zi : Q) : Q :=
  (clip 20000 150000 zi + row_age za * 800)%Q.
Definition row_spending_score (za zi zs : Q) : Q :=
  (clip 1 100 zs + row_income za zi / 5000)%Q.

(** A table of one customer who is not premium: the premium group is
    empty. *)
Definition one_customer : DataFrame :=
  {| customer_id := [1%Z];
     age := [35%Q];
     income := [78000%Q];
     spending_score := [656 # 10];
     region := ["North"];
     is_premium := [0%Z] |}.

(* ================================================================== *)
(** * The world of the script and its computations *)
(* ================================================================== *)

Inductive Exception : Type :=
  | OSError (path : string)
  | ValueError (msg : string).

(** What a figure shows. *)
Inductive Artist : Type :=
  | hist (x : list Q) (bins : nat) (color : string)
  | boxplot (x : list string) (y : list Q)
  | scatter (x y c : list Q) (cmap : string)
  | heatmap (labels : list string) (values : list (list float64))
            (annot : list (list string)) (cmap : string).

Record Axes : Type := {
  artist : Artist;
  title : string;
  xlabel : string;
  ylabel : string
}.

Record Figure : Type := {
  figsize : nat * nat;
  axes : list Axes
}.

(** A file is a text or an image of a figure at some resolution. *)
Inductive FileContent : Type :=
  | Text (s : string)
  | Png (dpi : nat) (fig : Figure).

Section World.

Context {RNG : NumpyRandom}.

(** The state the script acts on: numpy's global generator, the
    directories that exist, the files written, the lines printed. *)
Record World : Type := {
  np_random : rng_state;
  dirs : gset string;
  files : gmap string FileContent;
  stdout : list string
}.

(** A statement: it runs in a world and returns a value or raises,
    leaving the world with the effects that took place. *)
Definition Py (A : Type) : Type := World -> (Exception + A) * World.

Definition ret {A} (a : A) : Py A := fun w => (inr a, w).

Definition raise {A} (e : Exception) : Py A := fun w => (inl e, w).

Definition bind {A B} (c : Py A) (k : A -> Py B) : Py B :=
  fun w =>
    match c w with
    | (inr a, w') => k a w'
    | (inl e, w') => (inl e, w')
    end.

End World.

Declare Scope py_scope.
Delimit Scope py_scope with py.
Notation "x <- c ;; k" := (bind c (fun x => k))
  (at level 100, c at next level, right associativity) : py_scope.
Notation "c ;; k" := (bind c (fun _ => k))
  (at level 100, right associativity) : py_scope.
Open Scope py_scope.

(** The line break, [chr(10)]. *)
Definition nl : string := String "010"%char "".

(** [os.path.dirname]: what stands before the last slash. *)
Fixpoint has_slash (s : string) : bool :=
  match s with
  | "" => false
  | String c rest => if Ascii.eqb c "/" then true else has_slash rest
  end.

Fixpoint dirname (path : string) : string :=
  match path with
  | "" => ""
  | String c rest => if has_slash rest then String c (dirname rest) else ""
  end.

Section Primitives.

Context {RNG : NumpyRandom}.

(** A world whose generator is in state [s]. *)
Definition with_generator (s : rng_state) (w : World) : World :=
  {| np_random := s; dirs := dirs w; files := files w; stdout := stdout w |}.

(** A world with one more line printed, and with one more file. *)
Definition printed (line : string) (w : World) : World :=
  {| np_random := np_random w; dirs := dirs w; files := files w;
     stdout := stdout w ++ [line] |}.

Definition written (path : string) (content : FileContent) (w : World) : World :=
  {| np_random := np_random w; dirs := dirs w;
     files := <[path := content]> (files w); stdout := stdout w |}.

(** [print(line)]. *)
Definition print (line : string) : Py unit :=
  fun w => (inr tt, printed line w).

(** Creating or overwriting the file at [path]: the directory must
    exist (the working directory, the empty name, always does). *)
Definition write_file (path : string) (content : FileContent) : Py unit :=
  fun w =>
    if bool_decide (dirname path = "" \/ dirname path ∈ dirs w)
    then (inr tt, written path content w)
    else (inl (OSError path), w).

(** [np.random.seed(s)] replaces the state of the global generator. *)
Definition np_random_seed (s : Z) : Py unit :=
  fun w => (inr tt, with_generator (seed s) w).

(** [np.random.normal(loc, scale, size)] on the global generator. *)
Definition np_random_normal (loc scale : Q) (size : nat) : Py (list Q) :=
  fun w =>
    let (xs, s') := normal loc scale size (np_random w) in
    (inr xs, with_generator s' w).

(** [np.random.choice(a, size, p=p)] on the global generator; an empty
    population is refused. *)
Definition np_random_choice {A} (a : list A) (size : nat) (p : option (list Q))
  : Py (list A) :=
  fun w =>
    match a with
    | [] => (inl (ValueError "'a' cannot be empty unless no samples are taken"), w)
    | _ :: _ =>
        let (xs, s') := choice a size p (np_random w) in
        (inr xs, with_generator s' w)
    end.

(** [pd.DataFrame({...})]: the columns must have one length. *)
Definition pd_DataFrame (cid : list Z) (a i s : list Q) (r : list string)
    (p : list Z) : Py DataFrame :=
  let n := length cid in
  if (length a =? n)%nat && (length i =? n)%nat && (length s =? n)%nat
     && (length r =? n)%nat && (length p =? n)%nat
  then ret {| customer_id := cid; age := a; income := i;
              spending_score := s; region := r; is_premium := p |}
  else raise (ValueError "All arrays must be of the same length").

(* ---------------------------------------------------------------- *)
(** ** Stage 1: the synthetic customers (lines 20-34) *)

(** Lines 23-30: the draws in the order of the dictionary literal, each
    clipped, and the table built from them. *)
Definition draw_data (n_samples : nat) : Py DataFrame :=
  age0 <- np_random_normal 35 10 n_samples ;;
  income0 <- np_random_normal 50000 15000 n_samples ;;
  spending0 <- np_random_normal 50 20 n_samples ;;
  region0 <- np_random_choice ["North"; "South"; "East"; "West"] n_samples None ;;
  premium0 <- np_random_choice [0%Z; 1%Z] n_samples (Some [7 # 10; 3 # 10]) ;;
  pd_DataFrame (range 1 (Z.of_nat n_samples + 1))
               (map (clip 18 70) age0)
               (map (clip 20000 150000) income0)
               (map (clip 1 100) spending0)
               region0
               premium0.

(** Lines 20-34. *)
Definition generate_data (seed_value : Z) (n_samples : nat) : Py DataFrame :=
  np_random_seed seed_value ;;
  data <- draw_data n_samples ;;
  ret (add_relationships data).

(** The five vector draws of lines 25-29 from a generator state, in the
    order in which the dictionary literal evaluates them; each starts
    from the state the previous one left. *)
Definition age_draw (n : nat) (s : rng_state) : list Q * rng_state :=
  normal 35 10 n s.
Definition income_draw (n : nat) (s : rng_state) : list Q * rng_state :=
  normal 50000 15000 n (snd (age_draw n s)).
Definition spending_draw (n : nat) (s : rng_state) : list Q * rng_state :=
  normal 50 20 n (snd (income_draw n s)).
Definition region_draw (n : nat) (s : rng_state) : list string * rng_state :=
  choice ["North"; "South"; "East"; "West"] n None (snd (spending_draw n s)).
Definition premium_draw (n : nat) (s : rng_state) : list Z * rng_state :=
  choice [0%Z; 1%Z] n (Some [7 # 10; 3 # 10]) (snd (region_draw n s)).

(** The table of line 23 for these draws: clipped, not yet related. *)
Definition clipped_table (n : nat) (s : rng_state) : DataFrame :=
  {| customer_id := range 1 (Z.of_nat n + 1);
     age := map (clip 18 70) (fst (age_draw n s));
     income := map (clip 20000 150000) (fst (income_draw n s));
     spending_score := map (clip 1 100) (fst (spending_draw n s));
     region := fst (region_draw n s);
     is_premium := fst (premium_draw n s) |}.

(** The table that the later stages read. *)
Definition dataset (seed_value : Z) (n : nat) : DataFrame :=
  add_relationships (clipped_table n (seed seed_value)).

(** The output directories exist. *)
Definition directories_exist (w : World) : Prop :=
  "data" ∈ dirs w /\ "results" ∈ dirs w.

End Primitives.

(* ================================================================== *)
(** * Stage 2: the CSV files (lines 42-47) *)
(* ================================================================== *)

(** One record of the file: the fields joined by commas and a line break. *)
Definition csv_line (fields : list string) : string := join "," fields +:+ nl.

Definition csv_text (header : list string) (rows : list (list string)) : string :=
  String.concat "" (map csv_line (header :: rows)).

(** The records of a table of [n] rows given by its columns of cells. *)
Definition csv_rows (n : nat) (cols : list (list string)) : list (list string) :=
  map (fun i => map (fun col => nth i col "") cols) (seq 0 n).

(** [DataFrame.to_csv(path, index=...)] on a table given by its row
    labels, column names and columns of cells: with [index] the labels
    are a first, unnamed column. *)
Definition to_csv (index : bool) (labels names : list string)
    (cols : list (list string)) : string :=
  let body := csv_rows (length labels) cols in
  if index
  then csv_text ("" :: names) (zip_with cons labels body)
  else csv_text names body.

(** Reading a CSV text back, as [pd.read_csv] reads a text without
    quoted fields: the first line is the header, the lines that follow
    are the records (blank lines are skipped), and a record is split at
    its commas. *)
Fixpoint split_on (sep : ascii) (s : string) : list string :=
  match s with
  | "" => [""]
  | String c rest =>
      if Ascii.eqb c sep
      then "" :: split_on sep rest
      else match split_on sep rest with
           | [] => [String c ""]
           | w :: ws => String c w :: ws
           end
  end.

Definition nonblank (s : string) : bool :=
  match s with "" => false | String _ _ => true end.

Definition read_csv (text : string) : list string * list (list string) :=
  match List.filter nonblank (split_on "010" text) with
  | [] => ([], [])
  | header :: records =>
      (split_on "," header, map (split_on ",") records)
  end.

(** The numeric dtypes ([np.number]) and the values of a numeric column
    as floats. *)
Definition is_number (s : Series) : bool :=
  match s with
  | Int64 _ | Float64 _ => true
  | Object _ => false
  end.

Definition numeric_values (s : Series) : option (list Q) :=
  match s with
  | Int64 xs => Some (map inject_Z xs)
  | Float64 xs => Some xs
  | Object _ => None
  end.

(** [select_dtypes(include=[np.number])]. *)
Definition select_dtypes_number (cols : list (string * Series))
  : list (string * Series) :=
  List.filter (fun c => is_number (snd c)) cols.

(** The numeric columns of a table, as floats. *)
Definition numeric_only (cols : list (string * Series))
  : list (string * list Q) :=
  omap (fun c => pair (fst c) <$> numeric_values (snd c)) cols.

(** [Series.sort_values()]. *)
Fixpoint insert_sorted (x : Q) (l : list Q) : list Q :=
  match l with
  | [] => [x]
  | y :: l' => if Qle_bool x y then x :: l else y :: insert_sorted x l'
  end.

Definition sort_values (l : list Q) : list Q := fold_right insert_sorted [] l.

(** Deviations from the mean and their sum of squares. *)
Definition deviations (xs : list Q) : list Q :=
  let m := (Qsum xs / Qlen xs)%Q in map (fun x => (x - m)%Q) xs.

Definition sum_products (xs ys : list Q) : Q := Qsum (zip_with Qmult xs ys).

Section Statistics.

Context {FL : FloatLib}.

(** Sample standard deviation ([ddof=1]): undefined below two values. *)
Definition std (xs : list Q) : float64 :=
  match xs with
  | [] | [_] => NaN
  | _ =>
      let d := deviations xs in
      Finite (sqrt (sum_products d d / (Qlen xs - 1)))
  end.

(** [Series.quantile(q)], linear interpolation between order statistics. *)
Definition quantile (q : Q) (xs : list Q) : float64 :=
  match sort_values xs with
  | [] => NaN
  | (x0 :: _) as s =>
      let h := ((Qlen xs - 1) * q)%Q in
      let lo := Z.to_nat (Qfloor h) in
      let a := nth lo s x0 in
      let b := nth (S lo) s a in
      Finite (a + (b - a) * (h - inject_Z (Qfloor h)))
  end.

Definition describe_index : list string :=
  ["count"; "mean"; "std"; "min"; "25%"; "50%"; "75%"; "max"].

(** [Series.min()] and [Series.max()]. *)
Definition Series_min (xs : list Q) : float64 :=
  match sort_values xs with
  | [] => NaN
  | x0 :: _ => Finite x0
  end.

Definition Series_max (xs : list Q) : float64 :=
  match sort_values xs with
  | [] => NaN
  | x0 :: s => Finite (List.last s x0)
  end.

Definition describe_column (xs : list Q) : list float64 :=
  [ Finite (Qlen xs); mean xs; std xs; Series_min xs; quantile (1 # 4) xs;
    quantile (1 # 2) xs; quantile (3 # 4) xs; Series_max xs ].

(** [data.describe()]: the eight statistics of every numeric column. *)
Definition describe (cols : list (string * Series))
  : list (string * list float64) :=
  map (fun c => (fst c, describe_column (snd c))) (numeric_only cols).

(** Pearson's coefficient of two columns: not-a-number without
    observations or when a column does not vary. *)
Definition pearson (xs ys : list Q) : float64 :=
  match xs with
  | [] => NaN
  | _ :: _ =>
      let dx := deviations xs in
      let dy := deviations ys in
      let divisor := sqrt (sum_products dx dx * sum_products dy dy) in
      if Qeq_bool divisor 0 then NaN
      else Finite (sum_products dx dy / divisor)
  end.

(** [DataFrame.corr()]: the coefficient of every pair of numeric columns. *)
Definition corr (cols : list (string * Series)) : list (list float64) :=
  let vals := map snd (numeric_only cols) in
  map (fun xs => map (fun ys => pearson xs ys) vals) vals.

(** A float cell of a CSV file: [repr], and nothing for not-a-number. *)
Definition csv_float (x : float64) : string :=
  match x with
  | Finite q => float_repr q
  | PosInf => "inf"
  | NegInf => "-inf"
  | NaN => ""
  end.

(** The cells of a column of the customer table. *)
Definition cells (s : Series) : list string :=
  match s with
  | Int64 xs => map str_Z xs
  | Float64 xs => map float_repr xs
  | Object xs => xs
  end.

(** The labels of a [RangeIndex] of [n] rows. *)
Definition range_index (n : nat) : list string := map str_nat (seq 0 n).

(** The text of [data.to_csv(path, index=...)]. *)
Definition data_csv (index : bool) (data : DataFrame) : string :=
  to_csv index (range_index (len data)) (columns data)
         (map (fun c => cells (snd c)) (items data)).

(** The text of [summary.to_csv(path)] (the index is written). *)
Definition summary_csv (summary : list (string * list float64)) : string :=
  to_csv true describe_index (map fst summary)
         (map (fun c => map csv_float (snd c)) summary).

End Statistics.


(** A column that takes two different values. *)
Definition varies (xs : list Q) : Prop :=
  exists a b : Q, In a xs /\ In b xs /\ ~ (a == b)%Q.

(** The check of [varies] against the first value. *)
Definition variesb (xs : list Q) : bool :=
  match xs with
  | [] => false
  | x :: rest => existsb (fun y => negb (Qeq_bool x y)) rest
  end.

(* ================================================================== *)
(** * Stages 2 to 5 on the world *)
(* ================================================================== *)

(** [series[mask]]: the values where the mask holds. *)
Definition eq_mask (xs : list Z) (v : Z) : list bool :=
  map (fun x => Z.eqb x v) xs.

Definition select {A} (xs : list A) (mask : list bool) : list A :=
  map fst (List.filter snd (zip xs mask)).

(** Lines 103-104: the spending scores of the premium customers and of
    the others. *)
Definition premium_scores (data : DataFrame) : list Q :=
  select (spending_score data) (eq_mask (is_premium data) 1).

Definition non_premium_scores (data : DataFrame) : list Q :=
  select (spending_score data) (eq_mask (is_premium data) 0).

(** The verdict of line 118: [p_value < 0.05]. *)
Definition significant (p_value : float64) : bool :=
  float_ltb p_value (Finite (5 # 100)).

(** The text written by lines 109-118, one element per [f.write]. *)
Definition report_lines (premium non_premium : list Q)
    (t_stat p_value : float64) : list string :=
  [ "Statistical Analysis Results" +:+ nl;
    replicate_char 40 "=" +:+ nl +:+ nl;
    "Premium customers: " +:+ str_nat (length premium) +:+ nl;
    "Non-premium customers: " +:+ str_nat (length non_premium) +:+ nl +:+ nl;
    "Mean spending (premium): $" +:+ format_f 2 (mean premium) +:+ nl;
    "Mean spending (non-premium): $" +:+ format_f 2 (mean non_premium)
      +:+ nl +:+ nl;
    "T-test results:" +:+ nl;
    "  t-statistic: " +:+ format_f 4 t_stat +:+ nl;
    "  p-value: " +:+ format_f 6 p_value +:+ nl;
    "  Significant at p < 0.05: "
      +:+ (if significant p_value then "YES" else "NO") +:+ nl ].

Section Pipeline.

Context {RNG : NumpyRandom} {FL : FloatLib} {ST : ScipyStats}.

(** Lines 42-47: the raw data without index, the summary with it. *)
Definition save_raw_data (data : DataFrame) : Py unit :=
  write_file "data/raw_customer_data.csv" (Text (data_csv false data)).

Definition save_summary (data : DataFrame) : Py unit :=
  let summary := describe (items data) in
  write_file "results/summary_statistics.csv" (Text (summary_csv summary)).

(** Lines 54-87: the four panels. *)
Definition distributions_figure (data : DataFrame) : Figure :=
  {| figsize := (14, 10)%nat;
     axes :=
       [ {| artist := hist (age data) 30 "skyblue";
            title := "Age Distribution"; xlabel := "Age"; ylabel := "Count" |};
         {| artist := hist (income data) 30 "lightgreen";
            title := "Income Distribution"; xlabel := "Income ($)";
            ylabel := "Count" |};
         {| artist := boxplot (region data) (spending_score data);
            title := "Spending Score by Region"; xlabel := "Region";
            ylabel := "Spending Score" |};
         {| artist := scatter (age data) (income data) (spending_score data)
                              "viridis";
            title := "Age vs Income (colored by Spending Score)";
            xlabel := "Age"; ylabel := "Income ($)" |} ] |}.

(** Lines 91-96: the heatmap of the correlations of the numeric
    columns, every cell annotated with two decimals. *)
Definition correlation_figure (data : DataFrame) : Figure :=
  let numeric_data := select_dtypes_number (items data) in
  let corr_matrix := corr numeric_data in
  {| figsize := (10, 8)%nat;
     axes :=
       [ {| artist := heatmap (map fst numeric_data) corr_matrix
                              (map (map (format_f 2)) corr_matrix) "coolwarm";
            title := "Correlation Matrix"; xlabel := ""; ylabel := "" |} ] |}.

Definition create_visualizations (data : DataFrame) : Py unit :=
  print "🎨 Creating visualizations..." ;;
  write_file "results/distributions.png" (Png 150 (distributions_figure data)) ;;
  print "   Saved: results/distributions.png" ;;
  write_file "results/correlation_matrix.png"
             (Png 150 (correlation_figure data)) ;;
  print "   Saved: results/correlation_matrix.png".

(** Lines 103-118: the two groups, the t-test (equal variances, the
    default) and the text of the report. *)
Definition report (data : DataFrame) : string :=
  let premium := premium_scores data in
  let non_premium := non_premium_scores data in
  let (t_stat, p_value) := ttest_ind premium non_premium true in
  String.concat "" (report_lines premium non_premium t_stat p_value).

(** Lines 102-120. *)
Definition statistical_analysis (data : DataFrame) : Py unit :=
  print "📊 Performing statistical analysis..." ;;
  write_file "results/statistical_analysis.txt" (Text (report data)) ;;
  print "   Saved: results/statistical_analysis.txt".

(** The script for a seed and a number of samples; it returns the
    table as the last statement leaves it. *)
Definition script (seed_value : Z) (n_samples : nat) : Py DataFrame :=
  print "🚀 Starting Data Analysis Pipeline" ;;
  print (replicate_char 50 "=") ;;
  data <- generate_data seed_value n_samples ;;
  print "📊 Data Overview:" ;;
  print ("   Samples: " +:+ str_nat (len data)) ;;
  print ("   Features: " +:+ str_nat (length (columns data))) ;;
  print ("   Columns: " +:+ join ", " (columns data)) ;;
  save_raw_data data ;;
  print "💾 Saved raw data to: data/raw_customer_data.csv" ;;
  save_summary data ;;
  print "📈 Generated summary statistics" ;;
  create_visualizations data ;;
  statistical_analysis data ;;
  print (replicate_char 50 "=") ;;
  print "✅ ANALYSIS COMPLETE!" ;;
  print (nl +:+ "📁 Output files created:") ;;
  print "   data/raw_customer_data.csv" ;;
  print "   results/summary_statistics.csv" ;;
  print "   results/distributions.png" ;;
  print "   results/correlation_matrix.png" ;;
  print "   results/statistical_analysis.txt" ;;
  print (nl +:+ "📋 To view results from Windows:") ;;
  print "   1. Open File Explorer" ;;
  print "   2. Type: \\wsl$\Ubuntu\home\sufiands\data_science_project" ;;
  print "   3. Open the 'results' folder" ;;
  ret data.

(** The script as written: seed 42, a thousand customers. *)
Definition n_samples : nat := 1000.

Definition main : Py DataFrame := script 42 n_samples.

(** The world after each of the later stages. *)
Definition after_raw_data (data : DataFrame) (w : World) : World :=
  written "data/raw_customer_data.csv" (Text (data_csv false data)) w.

Definition after_summary (data : DataFrame) (w : World) : World :=
  written "results/summary_statistics.csv"
          (Text (summary_csv (describe (items data)))) w.

Definition after_visualizations (data : DataFrame) (w : World) : World :=
  printed "   Saved: results/correlation_matrix.png"
    (written "results/correlation_matrix.png" (Png 150 (correlation_figure data))
       (printed "   Saved: results/distributions.png"
          (written "results/distributions.png"
                   (Png 150 (distributions_figure data))
             (printed "🎨 Creating visualizations..." w)))).

Definition after_analysis (data : DataFrame) (w : World) : World :=
  printed "   Saved: results/statistical_analysis.txt"
    (written "results/statistical_analysis.txt" (Text (report data))
       (printed "📊 Performing statistical analysis..." w)).

(** The files of a complete run over an initial set of files, and the
    lines it prints. *)
Definition output_files (data : DataFrame) (fs : gmap string FileContent)
  : gmap string FileContent :=
  <["results/statistical_analysis.txt" := Text (report data)]>
    (<["results/correlation_matrix.png" := Png 150 (correlation_figure data)]>
       (<["results/distributions.png" := Png 150 (distributions_figure data)]>
          (<["results/summary_statistics.csv" :=
               Text (summary_csv (describe (items data)))]>
             (<["data/raw_customer_data.csv" := Text (data_csv false data)]> fs)))).

Definition console (data : DataFrame) : list string :=
  [ "🚀 Starting Data Analysis Pipeline";
    replicate_char 50 "=";
    "📊 Data Overview:";
    "   Samples: " +:+ str_nat (len data);
    "   Features: " +:+ str_nat (length (columns data));
    "   Columns: " +:+ join ", " (columns data);
    "💾 Saved raw data to: data/raw_customer_data.csv";
    "📈 Generated summary statistics";
    "🎨 Creating visualizations...";
    "   Saved: results/distributions.png";
    "   Saved: results/correlation_matrix.png";
    "📊 Performing statistical analysis...";
    "   Saved: results/statistical_analysis.txt";
    replicate_char 50 "=";
    "✅ ANALYSIS COMPLETE!";
    nl +:+ "📁 Output files created:";
    "   data/raw_customer_data.csv";
    "   results/summary_statistics.csv";
    "   results/distributions.png";
    "   results/correlation_matrix.png";
    "   results/statistical_analysis.txt";
    nl +:+ "📋 To view results from Windows:";
    "   1. Open File Explorer";
    "   2. Type: \\wsl$\Ubuntu\home\sufiands\data_science_project";
    "   3. Open the 'results' folder" ].

Definition after_script (seed_value : Z) (n : nat) (w : World) : World :=
  {| np_random := snd (premium_draw n (seed seed_value));
     dirs := dirs w;
     files := output_files (dataset seed_value n) (files w);
     stdout := stdout w ++ console (dataset seed_value n) |}.

End Pipeline.

(* ================================================================== *)
(** * Small instances of the interfaces *)
(* ================================================================== *)

(** The pipeline runs inside Rocq on these: a linear congruential
    generator, a square root by integer square root, a fixed-point
    float representation, and a stand-in for the t-test. *)
Module Sample.

Definition step (s : Z) : Z := Z.land (s * 1103515245 + 12345) 2147483647.

(** The successive states after [s], [size] of them. *)
Fixpoint states (size : nat) (s : Z) : list Z :=
  match size with
  | O => []
  | S k => step s :: states k (step s)
  end.

Definition final_state (size : nat) (s : Z) : Z := List.last (states size s) s.

(** A standard deviate read off a state: a multiple of one half
    between -4 and 4. *)
Definition deviate (s : Z) : Q := (Z.shiftr s 16 mod 17 - 8)%Z # 2.

Definition sample_normal (loc scale : Q) (size : nat) (s : Z) : list Q * Z :=
  (map (fun x => (loc + scale * deviate x)%Q) (states size s),
   final_state size s).

(** The index chosen by a state: uniform without [p], by the
    cumulative probabilities with it. *)
Fixpoint pick (p : list Q) (u : Q) : nat :=
  match p with
  | [] => O
  | x :: p' => if Qle_bool x u then S (pick p' (u - x)) else O
  end.

Definition index_of (population : nat) (p : option (list Q)) (s : Z) : nat :=
  match p with
  | None => Z.to_nat (Z.shiftr s 16 mod Z.of_nat population)
  | Some probs => pick probs ((Z.shiftr s 16 mod 100)%Z # 100)
  end.

Definition sample_choice (A : Type) (a : list A) (size : nat)
    (p : option (list Q)) (s : Z) : list A * Z :=
  match a with
  | [] => ([], s)
  | a0 :: _ =>
      (map (fun x => nth (index_of (length a) p x) a a0) (states size s),
       final_state size s)
  end.

(** The square root of [n/d] as the integer root of [n*d] over [d]. *)
Definition sample_sqrt (x : Q) : Q :=
  Z.sqrt (Qnum x * Zpos (Qden x)) # Qden x.

(** A float with six decimals. *)
Definition sample_repr (q : Q) : string := format_f 6 (Finite q).

(** The difference of the means as statistic and a p-value that
    decreases with it; not-a-number twice on an empty sample. *)
Definition sample_ttest (a b : list Q) (equal_var : bool) : float64 * float64 :=
  match mean a, mean b with
  | Finite ma, Finite mb =>
      let t := (ma - mb)%Q in
      (Finite t, Finite (1 / (1 + t * t)))
  | _, _ => (NaN, NaN)
  end.

End Sample.

(* ================================================================== *)
(** * Properties of the text functions *)
(* ================================================================== *)

Lemma app_string_cons (c : ascii) (s t : string) :
  String c s +:+ t = String c (s +:+ t).
Proof. reflexivity. Qed.

Lemma app_string_nil (t : string) : "" +:+ t = t.
Proof. reflexivity. Qed.

Lemma chars_app (s t : string) : chars (s +:+ t) = chars s ++ chars t.
Proof.
  induction s as [|c s IH]; [reflexivity|].
  rewrite app_string_cons. unfold chars in *. simpl. now rewrite IH.
Qed.

Lemma length_app_string (s t : string) :
  String.length (s +:+ t) = (String.length s + String.length t)%nat.
Proof.
  induction s as [|c s IH]; [reflexivity|].
  rewrite app_string_cons. simpl. now rewrite IH.
Qed.

Lemma length_chars (s : string) : length (chars s) = String.length s.
Proof. induction s as [|c s IH]; simpl; [reflexivity | now f_equal]. Qed.

Lemma app_string_assoc (s t u : string) : (s +:+ t) +:+ u = s +:+ (t +:+ u).
Proof.
  induction s as [|c s IH]; [reflexivity|].
  rewrite !app_string_cons. now rewrite IH.
Qed.

Lemma app_string_empty_r (s : string) : s +:+ "" = s.
Proof.
  induction s as [|c s IH]; [reflexivity|].
  rewrite app_string_cons. now rewrite IH.
Qed.

Lemma length_replicate_char (k : nat) (c : ascii) :
  String.length (replicate_char k c) = k.
Proof. induction k as [|k IH]; simpl; [reflexivity | now rewrite IH]. Qed.

Lemma chars_replicate_char (k : nat) (a c : ascii) :
  In c (chars (replicate_char k a)) -> c = a.
Proof.
  induction k as [|k IH]; simpl; [tauto|].
  intros [H|H]; [now symmetry | now apply IH].
Qed.

Lemma chars_substring (n m : nat) (s : string) (c : ascii) :
  In c (chars (substring n m s)) -> In c (chars s).
Proof.
  revert n m. induction s as [|a s IH]; intros n m.
  - destruct n, m; simpl; tauto.
  - destruct n as [|n].
    + destruct m as [|m]; simpl; [tauto|].
      intros [H|H]; [now left | right; now apply (IH 0%nat m)].
    + simpl. intros H. right. now apply (IH n m).
Qed.

Lemma length_substring (n m : nat) (s : string) :
  (n + m <= String.length s)%nat -> String.length (substring n m s) = m.
Proof.
  revert n m. induction s as [|a s IH]; intros n m H; simpl in H.
  - assert (n = 0%nat) by lia. assert (m = 0%nat) by lia. now subst.
  - destruct n as [|n].
    + destruct m as [|m]; simpl; [reflexivity|].
      f_equal. apply (IH 0%nat m). lia.
    + simpl. apply IH. lia.
Qed.

Lemma digits_of_uint (u : Decimal.uint) (c : ascii) :
  In c (chars (NilEmpty.string_of_uint u)) -> is_digit c.
Proof.
  unfold is_digit.
  induction u; simpl; try tauto;
    (intros [H|H]; [subst c; simpl; tauto | now apply IHu]).
Qed.

Lemma str_N_digits (n : N) (c : ascii) : In c (chars (str_N n)) -> is_digit c.
Proof.
  unfold str_N, NilZero.string_of_uint.
  destruct (N.to_uint n) eqn:E; try apply digits_of_uint.
  simpl. intros [H|[]]. subst c. unfold is_digit. simpl. tauto.
Qed.

Lemma str_N_nonempty (n : N) : str_N n <> "".
Proof.
  unfold str_N, NilZero.string_of_uint.
  destruct (N.to_uint n); simpl; discriminate.
Qed.

Lemma str_Z_chars (z : Z) (c : ascii) :
  In c (chars (str_Z z)) -> is_digit c \/ c = "-"%char.
Proof.
  unfold str_Z, NilZero.string_of_int. destruct (Z.to_int z) as [u|u].
  - intros H. left. revert H. unfold NilZero.string_of_uint.
    destruct u; try apply digits_of_uint.
    simpl. intros [H|[]]. subst c. unfold is_digit. simpl. tauto.
  - simpl. intros [H|H]; [right; now symmetry|]. left. revert H.
    unfold NilZero.string_of_uint.
    destruct u; try apply digits_of_uint.
    simpl. intros [H|[]]. subst c. unfold is_digit. simpl. tauto.
Qed.

Lemma digit_plain (c : ascii) : is_digit c -> plain c.
Proof.
  unfold is_digit, plain. simpl.
  intros H. repeat destruct H as [H|H]; try subst c; try easy.
Qed.

Lemma numeric_char_plain (c : ascii) : numeric_char c -> plain c.
Proof.
  intros [H|[H|H]]; [now apply digit_plain | |]; subst c; unfold plain; easy.
Qed.

Lemma concat_empty_cons (x : string) (xs : list string) :
  String.concat "" (x :: xs) = x +:+ String.concat "" xs.
Proof.
  destruct xs as [|y ys]; simpl; [now rewrite app_string_empty_r | reflexivity].
Qed.

(** A CSV text starts with its header line. *)
Lemma csv_text_header (header : list string) (rows : list (list string)) :
  csv_text header rows =
  join "," header +:+ nl +:+ String.concat "" (map csv_line rows).
Proof.
  unfold csv_text. cbn [map]. rewrite concat_empty_cons.
  unfold csv_line at 1. now rewrite app_string_assoc.
Qed.

Lemma fixed_digits_length (d : nat) (q : Q) :
  (S d <= String.length (fixed_digits d q))%nat.
Proof.
  unfold fixed_digits, zfill.
  rewrite length_app_string, length_replicate_char. lia.
Qed.

Lemma fixed_digits_chars (d : nat) (q : Q) (c : ascii) :
  In c (chars (fixed_digits d q)) -> is_digit c.
Proof.
  unfold fixed_digits, zfill. rewrite chars_app, in_app_iff.
  intros [H|H].
  - apply chars_replicate_char in H. subst c. unfold is_digit. simpl. tauto.
  - now apply str_N_digits in H.
Qed.

(** A finite number formatted with [d >= 1] decimals is an optional
    sign, at least one integer digit, the point, and exactly [d]
    decimal digits. *)
Lemma format_f_shape (d : nat) (q : Q) :
  exists sign int_part decimals,
    format_f (S d) (Finite q) = sign +:+ int_part +:+ "." +:+ decimals
    /\ (sign = "" \/ sign = "-")
    /\ (1 <= String.length int_part)%nat
    /\ String.length decimals = S d
    /\ (forall c, In c (chars int_part) -> is_digit c)
    /\ (forall c, In c (chars decimals) -> is_digit c).
Proof.
  pose proof (fixed_digits_length (S d) q) as Hlen.
  set (s := fixed_digits (S d) q) in *.
  exists (if Qlt_le_dec q 0 then "-" else ""),
         (substring 0 (String.length s - S d) s),
         (substring (String.length s - S d) (S d) s).
  split; [reflexivity|].
  split; [destruct (Qlt_le_dec q 0); tauto|].
  split; [rewrite length_substring; lia|].
  split; [apply length_substring; lia|].
  split; intros c H; apply chars_substring in H;
    now apply fixed_digits_chars in H.
Qed.

Lemma format_f_chars (d : nat) (q : Q) (c : ascii) :
  In c (chars (format_f d (Finite q))) -> numeric_char c.
Proof.
  unfold format_f. fold (fixed_digits d q).
  rewrite !chars_app, !in_app_iff. intros [H|[H|H]].
  - destruct (Qlt_le_dec q 0); simpl in H; [|tauto].
    destruct H as [H|[]]. right. left. now symmetry.
  - left. apply chars_substring in H. now apply fixed_digits_chars in H.
  - destruct d; simpl in H; [tauto|].
    destruct H as [H|H]; [right; right; now symmetry|].
    left. apply chars_substring in H. now apply fixed_digits_chars in H.
Qed.

(* ================================================================== *)
(** * The small instances meet the contracts *)
(* ================================================================== *)

Lemma states_length (size : nat) (s : Z) : length (Sample.states size s) = size.
Proof.
  revert s. induction size as [|k IH]; intros s; simpl; [reflexivity|].
  now rewrite IH.
Qed.

Lemma sample_normal_length (loc scale : Q) (size : nat) (s : Z) :
  length (fst (Sample.sample_normal loc scale size s)) = size.
Proof. unfold Sample.sample_normal. simpl. now rewrite length_map, states_length. Qed.

Lemma sample_choice_length (A : Type) (a : list A) (size : nat)
    (p : option (list Q)) (s : Z) :
  a <> [] -> length (fst (Sample.sample_choice A a size p s)) = size.
Proof.
  intros Ha. unfold Sample.sample_choice. destruct a as [|a0 a']; [easy|].
  simpl. now rewrite length_map, states_length.
Qed.

Lemma sample_choice_member (A : Type) (a : list A) (size : nat)
    (p : option (list Q)) (s : Z) (x : A) :
  In x (fst (Sample.sample_choice A a size p s)) -> In x a.
Proof.
  unfold Sample.sample_choice. destruct a as [|a0 a']; [simpl; tauto|].
  cbn [fst]. rewrite in_map_iff. intros [st [<- _]].
  set (i := Sample.index_of _ _ _).
  destruct (Nat.lt_ge_cases i (length (a0 :: a'))) as [Hi|Hi].
  - now apply nth_In.
  - rewrite nth_overflow by exact Hi. now left.
Qed.

Lemma sample_sqrt_square (x : Q) :
  (0 <= x)%Q -> (Sample.sample_sqrt (x * x) == x)%Q.
Proof.
  destruct x as [a b]. unfold Qle, Qeq, Sample.sample_sqrt. simpl.
  intros Ha. rewrite Z.mul_1_r in Ha.
  replace (a * a * Z.pos (b * b))%Z with ((a * Z.pos b) * (a * Z.pos b))%Z
    by (rewrite Pos2Z.inj_mul; ring).
  rewrite Z.sqrt_square by (apply Z.mul_nonneg_nonneg; lia).
  rewrite Pos2Z.inj_mul. ring.
Qed.

Lemma sample_repr_plain (q : Q) : plain_field (Sample.sample_repr q).
Proof.
  intros c H. apply numeric_char_plain. now apply (format_f_chars 6 q).
Qed.

Lemma sample_ttest_empty (a b : list Q) (equal_var : bool) :
  a = [] \/ b = [] -> Sample.sample_ttest a b equal_var = (NaN, NaN).
Proof.
  unfold Sample.sample_ttest. intros [-> | ->]; simpl; [reflexivity|].
  now destruct (mean a).
Qed.

#[local] Instance sample_random : NumpyRandom := {|
  rng_state := Z;
  seed := fun s => s;
  normal := Sample.sample_normal;
  choice := Sample.sample_choice;
  normal_length := sample_normal_length;
  choice_length := sample_choice_length;
  choice_member := sample_choice_member
|}.

#[local] Instance sample_floats : FloatLib := {|
  sqrt := Sample.sample_sqrt;
  float_repr := Sample.sample_repr;
  sqrt_square := sample_sqrt_square;
  float_repr_plain := sample_repr_plain
|}.

#[local] Instance sample_stats : ScipyStats := {|
  ttest_ind := Sample.sample_ttest;
  ttest_ind_empty := sample_ttest_empty
|}.

(** A world with the two output directories and nothing else. *)
Definition fresh_world : World :=
  {| np_random := 0%Z; dirs := {["data"; "results"]}; files := ∅; stdout := [] |}.

(** A world without directories. *)
Definition bare_world : World :=
  {| np_random := 0%Z; dirs := ∅; files := ∅; stdout := [] |}.

(* ================================================================== *)
(** * Examples: the functions on small inputs, and two short runs *)
(* ================================================================== *)

Example clip_examples :
  clip 18 70 (71 # 2) = 71 # 2 /\ clip 18 70 120 = 70%Q /\ clip 18 70 3 = 18%Q.
Proof. repeat split; reflexivity. Qed.

Example round_half_even_examples :
  round_half_even (5 # 2) = 2%Z /\ round_half_even (7 # 2) = 4%Z
  /\ round_half_even (9 # 4) = 2%Z /\ round_half_even (11 # 4) = 3%Z.
Proof. repeat split; reflexivity. Qed.

Example format_f_examples :
  format_f 2 (Finite (5512345 # 100000)) = "55.12"
  /\ format_f 2 (Finite (-1 # 1000)) = "-0.00"
  /\ format_f 2 (Finite (1 # 8)) = "0.12"
  /\ format_f 2 (Finite (3 # 8)) = "0.38"
  /\ format_f 4 (Finite (-31234567 # 10000000)) = "-3.1235"
  /\ format_f 6 (Finite (1 # 3)) = "0.333333"
  /\ format_f 2 NaN = "nan".
Proof. vm_compute. repeat split; reflexivity. Qed.

Example read_csv_example :
  read_csv ("a,b" +:+ nl +:+ "1,2" +:+ nl +:+ nl +:+ "3,4" +:+ nl)
  = (["a"; "b"], [["1"; "2"]; ["3"; "4"]]).
Proof. reflexivity. Qed.

Example quantile_examples :
  format_f 2 (quantile (1 # 4) [4; 1; 3; 2]%Q) = "1.75"
  /\ format_f 2 (quantile (1 # 2) [4; 1; 3; 2]%Q) = "2.50"
  /\ Series_min [4; 1; 3; 2]%Q = Finite 1
  /\ Series_max [4; 1; 3; 2]%Q = Finite 4.
Proof. vm_compute. repeat split; reflexivity. Qed.

(** Four customers of the sample generator: the raw data, the report
    and the annotations of the heatmap. *)
Example run_of_four_raw_data :
  files (snd (script 42 4 fresh_world)) !! "data/raw_customer_data.csv"
  = Some (Text
      ("customer_id,age,income,spending_score,region,is_premium" +:+ nl
       +:+ "1,30.000000,44000.000000,28.800000,East,1" +:+ nl
       +:+ "2,70.000000,83500.000000,116.700000,North,0" +:+ nl
       +:+ "3,18.000000,71900.000000,34.380000,South,1" +:+ nl
       +:+ "4,55.000000,139000.000000,127.800000,North,1" +:+ nl)).
Proof. vm_compute. reflexivity. Qed.

Example run_of_four_report :
  files (snd (script 42 4 fresh_world)) !! "results/statistical_analysis.txt"
  = Some (Text
      ("Statistical Analysis Results" +:+ nl
       +:+ "========================================" +:+ nl +:+ nl
       +:+ "Premium customers: 3" +:+ nl
       +:+ "Non-premium customers: 1" +:+ nl +:+ nl
       +:+ "Mean spending (premium): $63.66" +:+ nl
       +:+ "Mean spending (non-premium): $116.70" +:+ nl +:+ nl
       +:+ "T-test results:" +:+ nl
       +:+ "  t-statistic: -53.0400" +:+ nl
       +:+ "  p-value: 0.000355" +:+ nl
       +:+ "  Significant at p < 0.05: YES" +:+ nl)).
Proof. vm_compute. reflexivity. Qed.

Example run_of_four_annotations :
  exists values,
    files (snd (script 42 4 fresh_world)) !! "results/correlation_matrix.png"
    = Some (Png 150
        {| figsize := (10, 8)%nat;
           axes := [ {| artist :=
                          heatmap numeric_column_names values
                            [ ["1.00"; "0.13"; "0.89"; "0.53"; "0.26"];
                              ["0.13"; "1.00"; "0.52"; "0.91"; "-0.76"];
                              ["0.89"; "0.52"; "1.00"; "0.83"; "0.02"];
                              ["0.53"; "0.91"; "0.83"; "1.00"; "-0.50"];
                              ["0.26"; "-0.76"; "0.02"; "-0.50"; "1.00"] ]
                            "coolwarm";
                        title := "Correlation Matrix";
                        xlabel := ""; ylabel := "" |} ] |}).
Proof. eexists. vm_compute. reflexivity. Qed.

(** Without the output directories the script stops at the first file,
    after the six lines of the overview. *)
Example run_without_directories :
  fst (script 42 3 bare_world) = inl (OSError "data/raw_customer_data.csv")
  /\ files (snd (script 42 3 bare_world)) = ∅
  /\ stdout (snd (script 42 3 bare_world))
     = [ "🚀 Starting Data Analysis Pipeline";
         "==================================================";
         "📊 Data Overview:"; "   Samples: 3"; "   Features: 6";
         "   Columns: customer_id, age, income, spending_score, region, is_premium" ].
Proof. vm_compute. repeat split; reflexivity. Qed.

(* ================================================================== *)
(** * Running stage 1 *)
(* ================================================================== *)

Section Generation.

Context {RNG : NumpyRandom}.

Lemma range_length (a b : Z) : length (range a b) = Z.to_nat (b - a).
Proof. unfold range. now rewrite length_map, length_seq. Qed.

Lemma range_from_1 (n : nat) : range 1 (Z.of_nat n + 1) = map Z.of_nat (seq 1 n).
Proof.
  unfold range. replace (Z.to_nat (Z.of_nat n + 1 - 1)) with n by lia.
  rewrite <- seq_shift, map_map. apply map_ext. intros k. lia.
Qed.

Lemma age_draw_length n s : length (fst (age_draw n s)) = n.
Proof. apply normal_length. Qed.

Lemma income_draw_length n s : length (fst (income_draw n s)) = n.
Proof. apply normal_length. Qed.

Lemma spending_draw_length n s : length (fst (spending_draw n s)) = n.
Proof. apply normal_length. Qed.

Lemma region_draw_length n s : length (fst (region_draw n s)) = n.
Proof. apply choice_length. discriminate. Qed.

Lemma premium_draw_length n s : length (fst (premium_draw n s)) = n.
Proof. apply choice_length. discriminate. Qed.

(** Lines 23-30 never raise: the six columns have [n] rows. *)
Lemma draw_data_run (n : nat) (w : World) :
  draw_data n w =
  (inr (clipped_table n (np_random w)),
   with_generator (snd (premium_draw n (np_random w))) w).
Proof.
  unfold draw_data, bind, np_random_normal, np_random_choice.
  pose proof (age_draw_length n (np_random w)) as La.
  pose proof (income_draw_length n (np_random w)) as Li.
  pose proof (spending_draw_length n (np_random w)) as Ls.
  pose proof (region_draw_length n (np_random w)) as Lr.
  pose proof (premium_draw_length n (np_random w)) as Lp.
  unfold clipped_table, premium_draw, region_draw, spending_draw,
    income_draw, age_draw in *.
  destruct (normal 35 10 n (np_random w)) as [za s1].
  cbn [np_random fst snd with_generator] in *.
  destruct (normal 50000 15000 n s1) as [zi s2].
  cbn [np_random fst snd with_generator] in *.
  destruct (normal 50 20 n s2) as [zs s3].
  cbn [np_random fst snd with_generator] in *.
  destruct (choice _ n None s3) as [rg s4].
  cbn [np_random fst snd with_generator] in *.
  destruct (choice _ n (Some _) s4) as [pm s5].
  cbn [np_random fst snd with_generator] in *.
  unfold pd_DataFrame.
  rewrite range_length, !length_map, La, Li, Ls, Lr, Lp.
  replace (Z.to_nat (Z.of_nat n + 1 - 1)) with n by lia.
  rewrite Nat.eqb_refl. reflexivity.
Qed.

(** Lines 20-34: the table depends on the seed and the size only. *)
Lemma generate_data_run (seed_value : Z) (n : nat) (w : World) :
  generate_data seed_value n w =
  (inr (dataset seed_value n),
   with_generator (snd (premium_draw n (seed seed_value))) w).
Proof.
  unfold generate_data, bind at 1. unfold np_random_seed.
  unfold bind. rewrite draw_data_run. reflexivity.
Qed.

End Generation.

(* ================================================================== *)
(** * Running the whole script *)
(* ================================================================== *)

Section Running.

Context {RNG : NumpyRandom} {FL : FloatLib} {ST : ScipyStats}.

Lemma World_eq (w1 w2 : World) :
  np_random w1 = np_random w2 -> dirs w1 = dirs w2 ->
  files w1 = files w2 -> stdout w1 = stdout w2 -> w1 = w2.
Proof. destruct w1, w2. simpl. now intros -> -> -> ->. Qed.

Lemma np_random_printed l w : np_random (printed l w) = np_random w.
Proof. reflexivity. Qed.
Lemma dirs_printed l w : dirs (printed l w) = dirs w.
Proof. reflexivity. Qed.
Lemma files_printed l w : files (printed l w) = files w.
Proof. reflexivity. Qed.
Lemma stdout_printed l w : stdout (printed l w) = stdout w ++ [l].
Proof. reflexivity. Qed.
Lemma np_random_written p c w : np_random (written p c w) = np_random w.
Proof. reflexivity. Qed.
Lemma dirs_written p c w : dirs (written p c w) = dirs w.
Proof. reflexivity. Qed.
Lemma files_written p c w : files (written p c w) = <[p := c]> (files w).
Proof. reflexivity. Qed.
Lemma stdout_written p c w : stdout (written p c w) = stdout w.
Proof. reflexivity. Qed.
Lemma np_random_with_generator s w : np_random (with_generator s w) = s.
Proof. reflexivity. Qed.
Lemma dirs_with_generator s w : dirs (with_generator s w) = dirs w.
Proof. reflexivity. Qed.
Lemma files_with_generator s w : files (with_generator s w) = files w.
Proof. reflexivity. Qed.
Lemma stdout_with_generator s w : stdout (with_generator s w) = stdout w.
Proof. reflexivity. Qed.

Create Rewrite HintDb world.
Hint Rewrite np_random_printed dirs_printed files_printed stdout_printed
  np_random_written dirs_written files_written stdout_written
  np_random_with_generator dirs_with_generator files_with_generator
  stdout_with_generator : world.

Lemma bind_inr {A B} (c : Py A) (k : A -> Py B) (w w' : World) (a : A) :
  c w = (inr a, w') -> bind c k w = k a w'.
Proof. intros H. unfold bind. now rewrite H. Qed.

Lemma bind_inl {A B} (c : Py A) (k : A -> Py B) (w w' : World) (e : Exception) :
  c w = (inl e, w') -> bind c k w = (inl e, w').
Proof. intros H. unfold bind. now rewrite H. Qed.

Lemma print_run (line : string) (w : World) :
  print line w = (inr tt, printed line w).
Proof. reflexivity. Qed.

Lemma write_file_run (path : string) (content : FileContent) (w : World) :
  dirname path ∈ dirs w ->
  write_file path content w = (inr tt, written path content w).
Proof.
  intros H. unfold write_file. rewrite bool_decide_eq_true_2; [reflexivity|].
  now right.
Qed.

Lemma write_file_missing (path : string) (content : FileContent) (w : World) :
  dirname path <> "" -> dirname path ∉ dirs w ->
  write_file path content w = (inl (OSError path), w).
Proof.
  intros H1 H2. unfold write_file. rewrite bool_decide_eq_false_2; [reflexivity|].
  tauto.
Qed.

(** One step of a run: a [print], or a write into an existing directory. *)
Ltac run_print := rewrite (bind_inr _ _ _ _ _ (print_run _ _)); cbv beta.
Ltac run_write H :=
  erewrite bind_inr by (apply write_file_run; exact H); cbv beta.

Lemma save_raw_data_run (data : DataFrame) (w : World) :
  "data" ∈ dirs w ->
  save_raw_data data w = (inr tt, after_raw_data data w).
Proof.
  intros H. unfold save_raw_data.
  now apply (write_file_run "data/raw_customer_data.csv").
Qed.

Lemma save_summary_run (data : DataFrame) (w : World) :
  "results" ∈ dirs w ->
  save_summary data w = (inr tt, after_summary data w).
Proof.
  intros H. unfold save_summary.
  now apply (write_file_run "results/summary_statistics.csv").
Qed.

Lemma create_visualizations_run (data : DataFrame) (w : World) :
  "results" ∈ dirs w ->
  create_visualizations data w = (inr tt, after_visualizations data w).
Proof.
  intros H. unfold create_visualizations.
  run_print. run_write H. run_print. run_write H. apply print_run.
Qed.

Lemma statistical_analysis_run (data : DataFrame) (w : World) :
  "results" ∈ dirs w ->
  statistical_analysis data w = (inr tt, after_analysis data w).
Proof.
  intros H. unfold statistical_analysis, after_analysis.
  run_print. run_write H. apply print_run.
Qed.

(** With its two directories in place the script runs to the end, and
    returns the table of stage 1. *)
Lemma script_run (seed_value : Z) (n : nat) (w : World) :
  directories_exist w ->
  script seed_value n w = (inr (dataset seed_value n), after_script seed_value n w).
Proof.
  intros [Hd Hr]. unfold script.
  run_print. run_print.
  rewrite (bind_inr _ _ _ _ _ (generate_data_run _ _ _)). cbv beta.
  run_print. run_print. run_print. run_print.
  erewrite bind_inr by (apply save_raw_data_run; exact Hd). cbv beta.
  run_print.
  erewrite bind_inr by (apply save_summary_run; exact Hr). cbv beta.
  run_print.
  erewrite bind_inr by (apply create_visualizations_run; exact Hr). cbv beta.
  erewrite bind_inr by (apply statistical_analysis_run; exact Hr). cbv beta.
  do 12 run_print.
  unfold ret. f_equal.
  unfold after_analysis, after_visualizations, after_summary, after_raw_data.
  apply World_eq; autorewrite with world; try reflexivity.
  unfold after_script, console. cbn [stdout].
  repeat rewrite <- app_assoc. reflexivity.
Qed.

End Running.

(* ================================================================== *)
(** * Properties of the generated table *)
(* ================================================================== *)

Lemma clip_between (lo hi x : Q) :
  (lo <= hi)%Q -> (lo <= clip lo hi x)%Q /\ (clip lo hi x <= hi)%Q.
Proof.
  intros H. unfold clip. split.
  - apply Q.min_glb; [apply Q.le_max_r | exact H].
  - apply Q.le_min_r.
Qed.

(** What clipping yields: the bound that the value passes, or the
    value itself. *)
Lemma clip_cases (lo hi x : Q) :
  (lo <= hi)%Q ->
  ((x < lo)%Q -> clip lo hi x = lo)
  /\ ((hi < x)%Q -> clip lo hi x = hi)
  /\ ((lo <= x)%Q -> (x <= hi)%Q -> clip lo hi x = x).
Proof.
  intros Hlh. unfold clip, Qmin, Qmax, GenericMinMax.gmin, GenericMinMax.gmax.
  destruct (Qcompare_spec x lo) as [H1|H1|H1];
    [destruct (Qcompare_spec x hi) as [H2|H2|H2]
    |destruct (Qcompare_spec lo hi) as [H2|H2|H2]
    |destruct (Qcompare_spec x hi) as [H2|H2|H2]];
    repeat split; intros; try reflexivity; lra.
Qed.

Lemma existsb_above (bound : Q) (l : list Q) :
  existsb (fun x => negb (Qle_bool x bound)) l = true ->
  exists x, In x l /\ (bound < x)%Q.
Proof.
  rewrite existsb_exists. intros [x [Hin Hx]]. exists x. split; [exact Hin|].
  apply Qnot_le_lt. intros Hle. apply Qle_bool_iff in Hle.
  rewrite Hle in Hx. discriminate.
Qed.

Section GeneratedTable.

Context {RNG : NumpyRandom}.

Lemma dataset_age_lookup (sd : Z) (n i : nat) :
  age (dataset sd n) !! i = row_age <$> fst (age_draw n (seed sd)) !! i.
Proof.
  unfold dataset, add_relationships, clipped_table. cbn [age].
  now rewrite list_lookup_fmap.
Qed.

Lemma dataset_income_lookup (sd : Z) (n i : nat) :
  income (dataset sd n) !! i =
  match fst (age_draw n (seed sd)) !! i, fst (income_draw n (seed sd)) !! i with
  | Some za, Some zi => Some (row_income za zi)
  | _, _ => None
  end.
Proof.
  unfold dataset, add_relationships, clipped_table. cbn [age income].
  unfold Series_add, Series_mul_scalar.
  rewrite lookup_zip_with, !list_lookup_fmap.
  destruct (fst (age_draw n (seed sd)) !! i) as [za|];
    destruct (fst (income_draw n (seed sd)) !! i) as [zi|]; reflexivity.
Qed.

Lemma dataset_spending_lookup (sd : Z) (n i : nat) :
  spending_score (dataset sd n) !! i =
  match fst (age_draw n (seed sd)) !! i, fst (income_draw n (seed sd)) !! i,
        fst (spending_draw n (seed sd)) !! i with
  | Some za, Some zi, Some zs => Some (row_spending_score za zi zs)
  | _, _, _ => None
  end.
Proof.
  unfold dataset, add_relationships, clipped_table.
  cbn [age income spending_score].
  unfold Series_add, Series_mul_scalar, Series_div_scalar.
  rewrite lookup_zip_with, !list_lookup_fmap, lookup_zip_with,
    !list_lookup_fmap.
  destruct (fst (age_draw n (seed sd)) !! i) as [za|];
    destruct (fst (income_draw n (seed sd)) !! i) as [zi|];
    destruct (fst (spending_draw n (seed sd)) !! i) as [zs|]; reflexivity.
Qed.

Lemma row_age_range (za : Q) : (18 <= row_age za)%Q /\ (row_age za <= 70)%Q.
Proof. apply clip_between. lra. Qed.

Lemma row_income_range (za zi : Q) :
  (34400 <= row_income za zi)%Q /\ (row_income za zi <= 206000)%Q.
Proof.
  unfold row_income.
  pose proof (row_age_range za) as [? ?].
  pose proof (clip_between 20000 150000 zi ltac:(lra)) as [? ?].
  split; lra.
Qed.

Lemma row_spending_increment (za zi zs : Q) :
  (clip 1 100 zs + (688 # 100) <= row_spending_score za zi zs)%Q.
Proof.
  unfold row_spending_score.
  pose proof (row_income_range za zi) as [H _].
  assert (688 # 100 <= row_income za zi / 5000)%Q; [|lra].
  apply Qle_shift_div_l; lra.
Qed.

(** The table of line 30 after seeding, as stage 1 builds it. *)
Lemma draw_data_after_seed (sd : Z) (n : nat) (w : World) :
  fst (draw_data n (snd (np_random_seed sd w))) = inr (clipped_table n (seed sd)).
Proof. now rewrite draw_data_run. Qed.

Lemma generate_data_value (sd : Z) (n : nat) (w : World) :
  fst (generate_data sd n w) = inr (dataset sd n).
Proof. now rewrite generate_data_run. Qed.

(** C1.  For a fixed seed and sample count the generation is
    deterministic: whatever the world (and the state of the global
    generator) it starts from, it returns the same table, every column
    equal value for value; generating a second time, right after the
    first, returns that table again. *)
Theorem generation_is_deterministic (seed_value : Z) (n : nat) (w1 w2 : World) :
  exists data : DataFrame,
    fst (generate_data seed_value n w1) = inr data
    /\ fst (generate_data seed_value n w2) = inr data
    /\ fst (generate_data seed_value n (snd (generate_data seed_value n w1)))
       = inr data.
Proof.
  exists (dataset seed_value n). repeat split; apply generate_data_value.
Qed.

(** C2.  Every row is computed in the order draw, clip, adjust.  The
    age is its draw limited to [18, 70]: 18 for a draw below 18, 70 for
    a draw above 70, the draw itself in between.  The income is its
    draw limited in the same way to [20000, 150000], plus [age * 800];
    the spending score is its draw limited to [1, 100], plus the
    adjusted income over 5000.  Nothing is limited again after the
    adjustment. *)
Theorem derived_fields_draw_clip_adjust (seed_value : Z) (n : nat) (w : World)
    (i : nat) :
  (i < n)%nat ->
  exists (data : DataFrame) (za zi zs a b c : Q),
    fst (generate_data seed_value n w) = inr data
    /\ fst (age_draw n (seed seed_value)) !! i = Some za
    /\ fst (income_draw n (seed seed_value)) !! i = Some zi
    /\ fst (spending_draw n (seed seed_value)) !! i = Some zs
    /\ ((za < 18)%Q -> a = 18%Q)
    /\ ((70 < za)%Q -> a = 70%Q)
    /\ ((18 <= za)%Q -> (za <= 70)%Q -> a = za)
    /\ ((zi < 20000)%Q -> b = 20000%Q)
    /\ ((150000 < zi)%Q -> b = 150000%Q)
    /\ ((20000 <= zi)%Q -> (zi <= 150000)%Q -> b = zi)
    /\ ((zs < 1)%Q -> c = 1%Q)
    /\ ((100 < zs)%Q -> c = 100%Q)
    /\ ((1 <= zs)%Q -> (zs <= 100)%Q -> c = zs)
    /\ age data !! i = Some a
    /\ income data !! i = Some (b + a * 800)%Q
    /\ spending_score data !! i = Some (c + (b + a * 800) / 5000)%Q.
Proof.
  intros Hi.
  destruct (lookup_lt_is_Some_2 (fst (age_draw n (seed seed_value))) i)
    as [za Ha]; [now rewrite age_draw_length|].
  destruct (lookup_lt_is_Some_2 (fst (income_draw n (seed seed_value))) i)
    as [zi Hzi]; [now rewrite income_draw_length|].
  destruct (lookup_lt_is_Some_2 (fst (spending_draw n (seed seed_value))) i)
    as [zs Hzs]; [now rewrite spending_draw_length|].
  exists (dataset seed_value n), za, zi, zs,
         (clip 18 70 za), (clip 20000 150000 zi), (clip 1 100 zs).
  split; [apply generate_data_value|].
  do 3 (split; [assumption|]).
  destruct (clip_cases 18 70 za ltac:(lra)) as (? & ? & ?).
  destruct (clip_cases 20000 150000 zi ltac:(lra)) as (? & ? & ?).
  destruct (clip_cases 1 100 zs ltac:(lra)) as (? & ? & ?).
  do 9 (split; [assumption|]).
  rewrite dataset_age_lookup, dataset_income_lookup, dataset_spending_lookup.
  rewrite Ha, Hzi, Hzs. repeat split; reflexivity.
Qed.

End GeneratedTable.

(** The sample generator draws rows beyond both ceilings. *)
Lemma sample_spending_above_100 :
  exists s : Q,
    In s (spending_score (dataset (RNG := sample_random) 42 n_samples))
    /\ (100 < s)%Q.
Proof. apply existsb_above. vm_compute. reflexivity. Qed.

Lemma sample_income_above_150000 :
  exists x : Q,
    In x (income (dataset (RNG := sample_random) 42 n_samples))
    /\ (150000 < x)%Q.
Proof. apply existsb_above. vm_compute. reflexivity. Qed.

Section Ranges.

Context {RNG : NumpyRandom}.

Lemma dataset_age_range (sd : Z) (n : nat) :
  Forall (fun a => (18 <= a)%Q /\ (a <= 70)%Q) (age (dataset sd n)).
Proof.
  apply Forall_lookup. intros i a. rewrite dataset_age_lookup.
  destruct (fst (age_draw n (seed sd)) !! i) as [za|]; [|discriminate].
  intros [= <-]. apply row_age_range.
Qed.

Lemma clipped_spending_range (n : nat) (s : rng_state) :
  Forall (fun x => (1 <= x)%Q /\ (x <= 100)%Q)
         (spending_score (clipped_table n s)).
Proof.
  unfold clipped_table. cbn [spending_score].
  apply Forall_lookup. intros i x. rewrite list_lookup_fmap.
  destruct (fst (spending_draw n s) !! i) as [zs|]; [|discriminate].
  intros [= <-]. apply clip_between. lra.
Qed.

Lemma dataset_income_range (sd : Z) (n : nat) :
  Forall (fun x => (34400 <= x)%Q /\ (x <= 206000)%Q) (income (dataset sd n)).
Proof.
  apply Forall_lookup. intros i x. rewrite dataset_income_lookup.
  destruct (fst (age_draw n (seed sd)) !! i) as [za|]; [|discriminate].
  destruct (fst (income_draw n (seed sd)) !! i) as [zi|]; [|discriminate].
  intros [= <-]. apply row_income_range.
Qed.

Lemma spending_increment (sd : Z) (n i : nat) (s0 : Q) :
  spending_score (clipped_table n (seed sd)) !! i = Some s0 ->
  exists s1, spending_score (dataset sd n) !! i = Some s1
             /\ (s0 + (688 # 100) <= s1)%Q.
Proof.
  unfold clipped_table at 1. cbn [spending_score].
  rewrite list_lookup_fmap, dataset_spending_lookup.
  destruct (fst (spending_draw n (seed sd)) !! i) as [zs|] eqn:Hs;
    [|discriminate].
  intros [= <-].
  destruct (lookup_lt_is_Some_2 (fst (age_draw n (seed sd))) i) as [za Ha].
  { rewrite age_draw_length. apply lookup_lt_Some in Hs.
    now rewrite spending_draw_length in Hs. }
  destruct (lookup_lt_is_Some_2 (fst (income_draw n (seed sd))) i) as [zi Hi].
  { rewrite income_draw_length. apply lookup_lt_Some in Hs.
    now rewrite spending_draw_length in Hs. }
  rewrite Ha, Hi. eexists. split; [reflexivity|].
  apply row_spending_increment.
Qed.

(** C4.  In every row the age lies in [18, 70], and it is the clipped
    draw, not adjusted afterwards; the spending score lies in [1, 100]
    right after clipping, in the table of line 30, before the income is
    added.  The increment of line 34 raises every score by at least
    6.88, so the final score may exceed 100: it does for rows of the
    sample generator. *)
Theorem age_and_clipped_score_ranges (seed_value : Z) (n : nat) (w : World) :
  exists data0 data : DataFrame,
    fst (draw_data n (snd (np_random_seed seed_value w))) = inr data0
    /\ fst (generate_data seed_value n w) = inr data
    /\ age data = age data0
    /\ Forall (fun a => (18 <= a)%Q /\ (a <= 70)%Q) (age data)
    /\ Forall (fun s => (1 <= s)%Q /\ (s <= 100)%Q) (spending_score data0)
    /\ (forall i s0, spending_score data0 !! i = Some s0 ->
          exists s1, spending_score data !! i = Some s1
                     /\ (s0 + (688 # 100) <= s1)%Q)
    /\ (exists (R : NumpyRandom) (s : Q),
          In s (spending_score (dataset (RNG := R) 42 n_samples))
          /\ (100 < s)%Q).
Proof.
  exists (clipped_table n (seed seed_value)), (dataset seed_value n).
  split; [apply draw_data_after_seed|].
  split; [apply generate_data_value|].
  split; [reflexivity|].
  split; [apply dataset_age_range|].
  split; [apply clipped_spending_range|].
  split; [intros i s0; apply spending_increment|].
  exists sample_random. exact sample_spending_above_100.
Qed.

(** C10.  In every row the final income lies in [34400, 206000]: the
    clipped draw is in [20000, 150000] and [age * 800] adds between
    14400 and 56000.  It is never below 34400, and it can exceed the
    clipping ceiling of 150000: it does for rows of the sample
    generator. *)
Theorem final_income_range (seed_value : Z) (n : nat) (w : World) :
  exists data : DataFrame,
    fst (generate_data seed_value n w) = inr data
    /\ Forall (fun x => (34400 <= x)%Q /\ (x <= 206000)%Q) (income data)
    /\ (forall i x, income data !! i = Some x ->
          exists a b, age data !! i = Some a
                      /\ (18 <= a)%Q /\ (a <= 70)%Q
                      /\ (20000 <= b)%Q /\ (b <= 150000)%Q
                      /\ x = (b + a * 800)%Q)
    /\ (exists (R : NumpyRandom) (x : Q),
          In x (income (dataset (RNG := R) 42 n_samples))
          /\ (150000 < x)%Q).
Proof.
  exists (dataset seed_value n).
  split; [apply generate_data_value|].
  split; [apply dataset_income_range|].
  split.
  - intros i x. rewrite dataset_income_lookup, dataset_age_lookup.
    destruct (fst (age_draw n (seed seed_value)) !! i) as [za|];
      [|discriminate].
    destruct (fst (income_draw n (seed seed_value)) !! i) as [zi|];
      [|discriminate].
    intros [= <-]. exists (row_age za), (clip 20000 150000 zi).
    pose proof (row_age_range za) as [? ?].
    pose proof (clip_between 20000 150000 zi ltac:(lra)) as [? ?].
    repeat split; assumption.
  - exists sample_random. exact sample_income_above_150000.
Qed.

End Ranges.

(** C2 at the first row of a run of the sample generator. *)
Lemma derived_fields_draw_clip_adjust_witness :
  exists (data : DataFrame) (za zi zs a b c : Q),
    fst (generate_data (RNG := sample_random) 42 n_samples fresh_world) = inr data
    /\ fst (age_draw n_samples (seed 42)) !! 0%nat = Some za
    /\ fst (income_draw n_samples (seed 42)) !! 0%nat = Some zi
    /\ fst (spending_draw n_samples (seed 42)) !! 0%nat = Some zs
    /\ ((za < 18)%Q -> a = 18%Q)
    /\ ((70 < za)%Q -> a = 70%Q)
    /\ ((18 <= za)%Q -> (za <= 70)%Q -> a = za)
    /\ ((zi < 20000)%Q -> b = 20000%Q)
    /\ ((150000 < zi)%Q -> b = 150000%Q)
    /\ ((20000 <= zi)%Q -> (zi <= 150000)%Q -> b = zi)
    /\ ((zs < 1)%Q -> c = 1%Q)
    /\ ((100 < zs)%Q -> c = 100%Q)
    /\ ((1 <= zs)%Q -> (zs <= 100)%Q -> c = zs)
    /\ age data !! 0%nat = Some a
    /\ income data !! 0%nat = Some (b + a * 800)%Q
    /\ spending_score data !! 0%nat = Some (c + (b + a * 800) / 5000)%Q.
Proof.
  apply (derived_fields_draw_clip_adjust (RNG := sample_random)
           42 n_samples fresh_world 0).
  unfold n_samples. lia.
Defined.

(* ================================================================== *)
(** * Properties of a complete run *)
(* ================================================================== *)

Lemma fresh_world_directories : directories_exist fresh_world.
Proof. unfold directories_exist, fresh_world. cbn [dirs]. split; set_solver. Qed.

Section CompleteRun.

Context {RNG : NumpyRandom} {FL : FloatLib} {ST : ScipyStats}.

Lemma script_value (sd : Z) (n : nat) (w : World) :
  directories_exist w -> fst (script sd n w) = inr (dataset sd n).
Proof. intros H. now rewrite script_run. Qed.

Lemma main_value (w : World) :
  directories_exist w -> fst (main w) = inr (dataset 42 n_samples).
Proof. intros H. unfold main. now apply script_value. Qed.

(** The five files of a complete run. *)
Lemma raw_data_file (sd : Z) (n : nat) (w : World) :
  directories_exist w ->
  files (snd (script sd n w)) !! "data/raw_customer_data.csv"
  = Some (Text (data_csv false (dataset sd n))).
Proof.
  intros H. rewrite script_run by exact H. unfold after_script, output_files.
  cbn [snd files].
  rewrite !lookup_insert_ne by discriminate. apply lookup_insert_eq.
Qed.

Lemma summary_file (sd : Z) (n : nat) (w : World) :
  directories_exist w ->
  files (snd (script sd n w)) !! "results/summary_statistics.csv"
  = Some (Text (summary_csv (describe (items (dataset sd n))))).
Proof.
  intros H. rewrite script_run by exact H. unfold after_script, output_files.
  cbn [snd files].
  rewrite !lookup_insert_ne by discriminate. apply lookup_insert_eq.
Qed.

Lemma correlation_file (sd : Z) (n : nat) (w : World) :
  directories_exist w ->
  files (snd (script sd n w)) !! "results/correlation_matrix.png"
  = Some (Png 150 (correlation_figure (dataset sd n))).
Proof.
  intros H. rewrite script_run by exact H. unfold after_script, output_files.
  cbn [snd files].
  rewrite !lookup_insert_ne by discriminate. apply lookup_insert_eq.
Qed.


Lemma dataset_customer_id (sd : Z) (n : nat) :
  customer_id (dataset sd n) = map Z.of_nat (seq 1 n).
Proof.
  unfold dataset, add_relationships, clipped_table. cbn [customer_id].
  apply range_from_1.
Qed.

(** C5.  The script ends with the table that stage 1 generated, no
    later stage having changed it, and its [customer_id] column is the
    integers 1 to 1000: a thousand rows, the first one 1, each next one
    greater by 1. *)
Theorem customer_id_is_1_to_1000 (w : World) :
  directories_exist w ->
  exists data : DataFrame,
    fst (main w) = inr data
    /\ (forall w0 : World, fst (generate_data 42 n_samples w0) = inr data)
    /\ length (customer_id data) = 1000%nat
    /\ customer_id data !! 0%nat = Some 1%Z
    /\ (forall i : nat, (i < 1000)%nat ->
          customer_id data !! i = Some (Z.of_nat i + 1)%Z)
    /\ (forall i a b, customer_id data !! i = Some a ->
          customer_id data !! (S i) = Some b -> b = (a + 1)%Z).
Proof.
  intros H. exists (dataset 42 n_samples).
  split; [now apply script_value|].
  split; [intros w0; apply generate_data_value|].
  rewrite dataset_customer_id. unfold n_samples.
  assert (Hlk : forall i, (i < 1000)%nat ->
            map Z.of_nat (seq 1 1000) !! i = Some (Z.of_nat i + 1)%Z).
  { intros i Hi. rewrite list_lookup_fmap, lookup_seq_lt by exact Hi.
    simpl. f_equal. lia. }
  split; [now rewrite length_map, length_seq|].
  split; [apply (Hlk 0%nat); lia|].
  split; [exact Hlk|].
  intros i a b Ha Hb.
  assert (Hi : (S i < 1000)%nat).
  { apply lookup_lt_Some in Hb. now rewrite length_map, length_seq in Hb. }
  rewrite Hlk in Ha by lia. rewrite Hlk in Hb by lia.
  injection Ha as <-. injection Hb as <-. lia.
Qed.

End CompleteRun.

(** C5 on the sample instances, from a world with both directories. *)
Lemma customer_id_is_1_to_1000_witness :
  exists data : DataFrame,
    fst (main (RNG := sample_random) (FL := sample_floats) (ST := sample_stats)
              fresh_world) = inr data
    /\ (forall w0 : World, fst (generate_data 42 n_samples w0) = inr data)
    /\ length (customer_id data) = 1000%nat
    /\ customer_id data !! 0%nat = Some 1%Z
    /\ (forall i : nat, (i < 1000)%nat ->
          customer_id data !! i = Some (Z.of_nat i + 1)%Z)
    /\ (forall i a b, customer_id data !! i = Some a ->
          customer_id data !! (S i) = Some b -> b = (a + 1)%Z).
Proof.
  apply (customer_id_is_1_to_1000 (RNG := sample_random) (FL := sample_floats)
           (ST := sample_stats) fresh_world).
  exact fresh_world_directories.
Defined.

(* ================================================================== *)
(** * The numeric columns *)
(* ================================================================== *)

Lemma select_dtypes_number_items (data : DataFrame) :
  select_dtypes_number (items data) =
  [ ("customer_id", Int64 (customer_id data));
    ("age", Float64 (age data));
    ("income", Float64 (income data));
    ("spending_score", Float64 (spending_score data));
    ("is_premium", Int64 (is_premium data)) ].
Proof. reflexivity. Qed.

Lemma numeric_only_items (data : DataFrame) :
  numeric_only (items data) =
  [ ("customer_id", map inject_Z (customer_id data));
    ("age", age data);
    ("income", income data);
    ("spending_score", spending_score data);
    ("is_premium", map inject_Z (is_premium data)) ].
Proof. reflexivity. Qed.

Lemma numeric_only_select (data : DataFrame) :
  numeric_only (select_dtypes_number (items data)) = numeric_only (items data).
Proof. reflexivity. Qed.

Section NumericColumns.

Context {RNG : NumpyRandom} {FL : FloatLib} {ST : ScipyStats}.

Lemma describe_names (data : DataFrame) :
  map fst (describe (items data)) = numeric_column_names.
Proof. unfold describe. rewrite numeric_only_items. reflexivity. Qed.

Lemma corr_shape (data : DataFrame) :
  length (corr (select_dtypes_number (items data))) = 5%nat
  /\ Forall (fun row => length row = 5%nat)
            (corr (select_dtypes_number (items data))).
Proof.
  unfold corr. rewrite numeric_only_select, numeric_only_items.
  split; [reflexivity|]. repeat constructor.
Qed.

Lemma summary_csv_header (data : DataFrame) :
  exists rest : string,
    summary_csv (describe (items data)) =
    ",customer_id,age,income,spending_score,is_premium" +:+ nl +:+ rest.
Proof.
  unfold summary_csv, to_csv. rewrite csv_text_header, describe_names.
  eexists. reflexivity.
Qed.

(** C9.  The summary statistics and the correlation heatmap are both
    over the numeric columns [customer_id], [age], [income],
    [spending_score] and [is_premium]: the identifier and the 0/1 flag
    are among them, the categorical [region] is not, and the matrix is
    5 by 5. *)
Theorem numeric_columns_of_summary_and_heatmap (seed_value : Z) (n : nat)
    (w : World) :
  directories_exist w ->
  exists (data : DataFrame) (summary : list (string * list float64))
         (values : list (list float64)) (annot : list (list string)),
    fst (script seed_value n w) = inr data
    /\ files (snd (script seed_value n w)) !! "results/summary_statistics.csv"
       = Some (Text (summary_csv summary))
    /\ summary = describe (items data)
    /\ map fst summary = numeric_column_names
    /\ (exists rest, summary_csv summary =
          ",customer_id,age,income,spending_score,is_premium" +:+ nl +:+ rest)
    /\ files (snd (script seed_value n w)) !! "results/correlation_matrix.png"
       = Some (Png 150
                 {| figsize := (10, 8)%nat;
                    axes := [ {| artist := heatmap numeric_column_names values
                                                   annot "coolwarm";
                                 title := "Correlation Matrix";
                                 xlabel := ""; ylabel := "" |} ] |})
    /\ values = corr (select_dtypes_number (items data))
    /\ length values = 5%nat
    /\ Forall (fun row => length row = 5%nat) values
    /\ In "customer_id" numeric_column_names
    /\ In "is_premium" numeric_column_names
    /\ In "region" (columns data)
    /\ ~ In "region" numeric_column_names.
Proof.
  intros H.
  exists (dataset seed_value n), (describe (items (dataset seed_value n))),
         (corr (select_dtypes_number (items (dataset seed_value n)))),
         (map (map (format_f 2))
              (corr (select_dtypes_number (items (dataset seed_value n))))).
  split; [now apply script_value|].
  split; [now apply summary_file|].
  split; [reflexivity|].
  split; [apply describe_names|].
  split; [apply summary_csv_header|].
  split; [now apply correlation_file|].
  split; [reflexivity|].
  split; [apply corr_shape|].
  split; [apply corr_shape|].
  unfold numeric_column_names, columns. simpl.
  repeat split; try tauto.
  intros [Hc|[Hc|[Hc|[Hc|[Hc|[]]]]]]; discriminate.
Qed.

End NumericColumns.

(** C9 on the sample instances. *)
Lemma numeric_columns_of_summary_and_heatmap_witness :
  exists (data : DataFrame) (summary : list (string * list float64))
         (values : list (list float64)) (annot : list (list string)),
    fst (script (RNG := sample_random) (FL := sample_floats)
                (ST := sample_stats) 42 n_samples fresh_world) = inr data
    /\ files (snd (script 42 n_samples fresh_world))
         !! "results/summary_statistics.csv"
       = Some (Text (summary_csv summary))
    /\ summary = describe (items data)
    /\ map fst summary = numeric_column_names
    /\ (exists rest, summary_csv summary =
          ",customer_id,age,income,spending_score,is_premium" +:+ nl +:+ rest)
    /\ files (snd (script 42 n_samples fresh_world))
         !! "results/correlation_matrix.png"
       = Some (Png 150
                 {| figsize := (10, 8)%nat;
                    axes := [ {| artist := heatmap numeric_column_names values
                                                   annot "coolwarm";
                                 title := "Correlation Matrix";
                                 xlabel := ""; ylabel := "" |} ] |})
    /\ values = corr (select_dtypes_number (items data))
    /\ length values = 5%nat
    /\ Forall (fun row => length row = 5%nat) values
    /\ In "customer_id" numeric_column_names
    /\ In "is_premium" numeric_column_names
    /\ In "region" (columns data)
    /\ ~ In "region" numeric_column_names.
Proof.
  apply (numeric_columns_of_summary_and_heatmap (RNG := sample_random)
           (FL := sample_floats) (ST := sample_stats) 42 n_samples fresh_world).
  exact fresh_world_directories.
Defined.

(* ================================================================== *)
(** * Writing a CSV text and reading it back *)
(* ================================================================== *)

Lemma free_of_cons (sep c : ascii) (s : string) :
  free_of sep (String c s) -> c <> sep /\ free_of sep s.
Proof.
  unfold free_of. simpl. intros H. split.
  - intros ->. apply H. now left.
  - intros Hs. apply H. now right.
Qed.

Lemma split_on_free (sep : ascii) (s : string) :
  free_of sep s -> split_on sep s = [s].
Proof.
  induction s as [|c s IH]; intros H; [reflexivity|].
  apply free_of_cons in H as [Hc Hs]. simpl.
  apply Ascii.eqb_neq in Hc. rewrite Hc, (IH Hs). reflexivity.
Qed.

Lemma split_on_app (sep : ascii) (s t : string) :
  free_of sep s -> split_on sep (s +:+ String sep t) = s :: split_on sep t.
Proof.
  induction s as [|c s IH]; intros H.
  - rewrite app_string_nil. simpl. now rewrite Ascii.eqb_refl.
  - apply free_of_cons in H as [Hc Hs]. rewrite app_string_cons. simpl.
    apply Ascii.eqb_neq in Hc. rewrite Hc, (IH Hs). reflexivity.
Qed.

Lemma join_cons2 (sep : ascii) (p q : string) (r : list string) :
  join (String sep "") (p :: q :: r) = p +:+ String sep (join (String sep "") (q :: r)).
Proof. reflexivity. Qed.

Lemma split_on_join (sep : ascii) (fields : list string) :
  fields <> [] -> Forall (free_of sep) fields ->
  split_on sep (join (String sep "") fields) = fields.
Proof.
  induction fields as [|p r IH]; intros Hne Hall; [easy|].
  inversion Hall as [|? ? Hp Hr]; subst.
  destruct r as [|q r].
  - simpl. now apply split_on_free.
  - rewrite join_cons2, split_on_app by exact Hp.
    f_equal. apply IH; [discriminate | exact Hr].
Qed.

Lemma chars_join (sep : ascii) (fields : list string) (c : ascii) :
  In c (chars (join (String sep "") fields)) ->
  c = sep \/ exists f, In f fields /\ In c (chars f).
Proof.
  induction fields as [|p r IH]; [simpl; tauto|].
  destruct r as [|q r].
  - simpl. intros H. right. exists p. split; [now left | exact H].
  - rewrite join_cons2, chars_app, in_app_iff.
    intros [H|H].
    + right. exists p. split; [now left | exact H].
    + simpl in H. destruct H as [H|H]; [now left; symmetry|].
      destruct (IH H) as [Hs|[f [Hf Hc]]]; [now left|].
      right. exists f. split; [now right | exact Hc].
Qed.

Lemma plain_record_line (r : list string) :
  plain_record r -> free_of "010" (join "," r) /\ join "," r <> "".
Proof.
  intros [Hne Hall]. split; [|exact Hne].
  intros Hin. apply (chars_join ","%char) in Hin as [Hc|[f [Hf Hc]]].
  - discriminate.
  - rewrite List.Forall_forall in Hall. destruct (Hall f Hf _ Hc) as (_ & Hnl & _).
    now apply Hnl.
Qed.

Lemma plain_record_fields (r : list string) :
  plain_record r -> r <> [] /\ Forall (free_of ",") r.
Proof.
  intros [Hne Hall]. split; [intros ->; now apply Hne|].
  eapply List.Forall_impl; [|exact Hall].
  intros f Hf Hin. destruct (Hf _ Hin) as (Hc & _). now apply Hc.
Qed.

Lemma split_lines (ls : list string) :
  Forall (free_of "010") ls ->
  split_on "010" (String.concat "" (map (fun l => l +:+ nl) ls)) = ls ++ [""].
Proof.
  induction ls as [|l ls IH]; intros Hall; [reflexivity|].
  inversion Hall as [|? ? Hl Hls]; subst.
  cbn [map]. rewrite concat_empty_cons. unfold nl at 1.
  rewrite app_string_assoc, app_string_cons, app_string_nil.
  rewrite split_on_app by exact Hl. now rewrite (IH Hls).
Qed.

Lemma filter_nonblank (ls : list string) :
  Forall (fun l => l <> "") ls -> List.filter nonblank (ls ++ [""]) = ls.
Proof.
  induction ls as [|l ls IH]; intros Hall; [reflexivity|].
  inversion Hall as [|? ? Hl Hls]; subst.
  simpl. destruct l; [easy|]. simpl. now rewrite (IH Hls).
Qed.

(** Reading back a text of plain records returns the records. *)
Lemma read_csv_csv_text (header : list string) (rows : list (list string)) :
  plain_record header -> Forall plain_record rows ->
  read_csv (csv_text header rows) = (header, rows).
Proof.
  intros Hh Hrows.
  assert (Hall : Forall plain_record (header :: rows)) by now constructor.
  unfold read_csv, csv_text.
  replace (map csv_line (header :: rows))
    with (map (fun l => l +:+ nl) (map (join ",") (header :: rows)))
    by (rewrite map_map; reflexivity).
  rewrite split_lines, filter_nonblank.
  - cbn [map]. f_equal.
    + apply (split_on_join ","%char); now apply plain_record_fields.
    + rewrite map_map. rewrite <- (map_id rows) at 2.
      apply List.map_ext_Forall. eapply List.Forall_impl; [|exact Hrows].
      intros r Hr. apply (split_on_join ","%char); now apply plain_record_fields.
  - apply List.Forall_map. eapply List.Forall_impl; [|exact Hall].
    intros r Hr. now apply plain_record_line.
  - apply List.Forall_map. eapply List.Forall_impl; [|exact Hall].
    intros r Hr. now apply plain_record_line.
Qed.

Lemma plain_fieldb_sound (s : string) : plain_fieldb s = true -> plain_field s.
Proof.
  induction s as [|a s IH]; intros H c Hc; simpl in Hc; [tauto|].
  simpl in H. apply andb_prop in H as [Ha Hs].
  destruct Hc as [<-|Hc]; [|now apply IH].
  unfold plain_charb in Ha.
  apply andb_prop in Ha as [Ha H3]. apply andb_prop in Ha as [H1 H2].
  apply negb_true_iff in H1, H2, H3.
  apply Ascii.eqb_neq in H1, H2, H3. now repeat split.
Qed.

Lemma plain_field_str_Z (z : Z) : plain_field (str_Z z).
Proof.
  intros c Hc. apply str_Z_chars in Hc as [Hc| ->].
  - now apply digit_plain.
  - unfold plain. easy.
Qed.

Lemma plain_field_empty : plain_field "".
Proof. intros c []. Qed.

Lemma plain_field_nth (col : list string) (i : nat) :
  Forall plain_field col -> plain_field (nth i col "").
Proof.
  intros H. destruct (Nat.lt_ge_cases i (length col)) as [Hi|Hi].
  - rewrite List.Forall_forall in H. apply H. now apply nth_In.
  - rewrite nth_overflow by exact Hi. apply plain_field_empty.
Qed.

Lemma join_two_nonblank (p q : string) (r : list string) :
  join "," (p :: q :: r) <> "".
Proof.
  rewrite (join_cons2 ","%char). destruct p; [rewrite app_string_nil|
    rewrite app_string_cons]; discriminate.
Qed.

(** The rows of a table with at least two columns of plain cells are
    plain records. *)
Lemma csv_rows_plain (n : nat) (c1 c2 : list string) (cols : list (list string)) :
  Forall (Forall plain_field) (c1 :: c2 :: cols) ->
  Forall plain_record (csv_rows n (c1 :: c2 :: cols)).
Proof.
  intros H. unfold csv_rows. apply List.Forall_map.
  apply List.Forall_forall. intros i _. split.
  - cbn [map]. apply join_two_nonblank.
  - apply List.Forall_map. eapply List.Forall_impl; [|exact H].
    intros col Hcol. now apply plain_field_nth.
Qed.

Lemma csv_rows_length (n : nat) (cols : list (list string)) :
  length (csv_rows n cols) = n.
Proof. unfold csv_rows. now rewrite length_map, length_seq. Qed.

Lemma csv_rows_width (n : nat) (cols : list (list string)) :
  Forall (fun r => length r = length cols) (csv_rows n cols).
Proof.
  unfold csv_rows. apply List.Forall_map, List.Forall_forall.
  intros i _. apply length_map.
Qed.

Lemma csv_rows_lookup (n : nat) (cols : list (list string)) (i : nat) :
  (i < n)%nat ->
  csv_rows n cols !! i = Some (map (fun col => nth i col "") cols).
Proof.
  intros Hi. unfold csv_rows.
  now rewrite list_lookup_fmap, lookup_seq_lt by exact Hi.
Qed.

Section RawDataFile.

Context {RNG : NumpyRandom} {FL : FloatLib} {ST : ScipyStats}.

Lemma columns_names (data : DataFrame) : columns data = column_names.
Proof. reflexivity. Qed.

Lemma column_names_plain : plain_record column_names.
Proof.
  split; [discriminate|].
  repeat (apply List.Forall_cons; [apply plain_fieldb_sound; reflexivity|]).
  apply List.Forall_nil.
Qed.

Lemma len_dataset (sd : Z) (n : nat) : len (dataset sd n) = n.
Proof.
  unfold len. now rewrite dataset_customer_id, length_map, length_seq.
Qed.

Lemma float_cells_plain (xs : list Q) : Forall plain_field (map float_repr xs).
Proof.
  apply List.Forall_map, List.Forall_forall. intros q _.
  apply float_repr_plain.
Qed.

Lemma int_cells_plain (xs : list Z) : Forall plain_field (map str_Z xs).
Proof.
  apply List.Forall_map, List.Forall_forall. intros z _.
  apply plain_field_str_Z.
Qed.

Lemma region_cells_plain (sd : Z) (n : nat) :
  Forall plain_field (region (dataset sd n)).
Proof.
  unfold dataset, add_relationships, clipped_table. cbn [region].
  apply List.Forall_forall. intros r Hr.
  unfold region_draw in Hr. apply choice_member in Hr.
  simpl in Hr. destruct Hr as [<-|[<-|[<-|[<-|[]]]]];
    apply plain_fieldb_sound; reflexivity.
Qed.

(** The text of the raw-data file is the header and one plain record
    per row. *)
Lemma data_csv_text (data : DataFrame) :
  data_csv false data =
  csv_text column_names
           (csv_rows (len data) (map (fun c => cells (snd c)) (items data))).
Proof.
  unfold data_csv, to_csv, range_index.
  now rewrite length_map, length_seq.
Qed.

Lemma dataset_records_plain (sd : Z) (n : nat) :
  Forall plain_record
    (csv_rows (len (dataset sd n))
              (map (fun c => cells (snd c)) (items (dataset sd n)))).
Proof.
  cbn [items map snd cells]. apply csv_rows_plain.
  repeat (apply List.Forall_cons;
          [first [apply float_cells_plain | apply int_cells_plain
                 | apply region_cells_plain]|]).
  apply List.Forall_nil.
Qed.

(** C6.  The raw-data file of a complete run starts with the header
    line of the six column names in their order; read back, it has the
    columns of the table in memory and one record per row, a thousand
    of them; every record has six fields and starts with the customer
    identifier: there is no index column. *)
Theorem raw_data_csv_reads_back (w : World) :
  directories_exist w ->
  exists (data : DataFrame) (text : string) (records : list (list string)),
    fst (main w) = inr data
    /\ files (snd (main w)) !! "data/raw_customer_data.csv" = Some (Text text)
    /\ (exists body, text =
          "customer_id,age,income,spending_score,region,is_premium"
          +:+ nl +:+ body)
    /\ read_csv text = (columns data, records)
    /\ columns data = column_names
    /\ length records = len data
    /\ len data = 1000%nat
    /\ Forall (fun r => length r = 6%nat) records
    /\ (forall i, (i < 1000)%nat ->
          exists rest, records !! i = Some (str_Z (Z.of_nat i + 1) :: rest)
                       /\ customer_id data !! i = Some (Z.of_nat i + 1)%Z).
Proof.
  intros H.
  exists (dataset 42 n_samples), (data_csv false (dataset 42 n_samples)),
         (csv_rows (len (dataset 42 n_samples))
                   (map (fun c => cells (snd c)) (items (dataset 42 n_samples)))).
  split; [now apply script_value|].
  split; [now apply raw_data_file|].
  split.
  { rewrite data_csv_text, csv_text_header. eexists. reflexivity. }
  split.
  { rewrite data_csv_text, columns_names.
    apply read_csv_csv_text;
      [apply column_names_plain | apply dataset_records_plain]. }
  split; [apply columns_names|].
  split; [apply csv_rows_length|].
  split; [apply len_dataset|].
  split; [apply (csv_rows_width _ (map _ (items _)))|].
  intros i Hi. rewrite len_dataset. unfold n_samples.
  rewrite csv_rows_lookup by exact Hi.
  assert (Hid : customer_id (dataset 42 1000) !! i = Some (Z.of_nat i + 1)%Z).
  { rewrite dataset_customer_id, list_lookup_fmap, lookup_seq_lt by exact Hi.
    simpl. f_equal. lia. }
  eexists. split; [|exact Hid].
  cbn [items map snd cells]. do 2 f_equal.
  apply nth_lookup_Some. now rewrite list_lookup_fmap, Hid.
Qed.

End RawDataFile.

(** C6 on the sample instances. *)
Lemma raw_data_csv_reads_back_witness :
  exists (data : DataFrame) (text : string) (records : list (list string)),
    fst (main (RNG := sample_random) (FL := sample_floats) (ST := sample_stats)
              fresh_world) = inr data
    /\ files (snd (main fresh_world)) !! "data/raw_customer_data.csv"
       = Some (Text text)
    /\ (exists body, text =
          "customer_id,age,income,spending_score,region,is_premium"
          +:+ nl +:+ body)
    /\ read_csv text = (columns data, records)
    /\ columns data = column_names
    /\ length records = len data
    /\ len data = 1000%nat
    /\ Forall (fun r => length r = 6%nat) records
    /\ (forall i, (i < 1000)%nat ->
          exists rest, records !! i = Some (str_Z (Z.of_nat i + 1) :: rest)
                       /\ customer_id data !! i = Some (Z.of_nat i + 1)%Z).
Proof.
  apply (raw_data_csv_reads_back (RNG := sample_random) (FL := sample_floats)
           (ST := sample_stats) fresh_world).
  exact fresh_world_directories.
Defined.

(* ================================================================== *)
(** * The correlation matrix *)
(* ================================================================== *)

Lemma variesb_sound (xs : list Q) : variesb xs = true -> varies xs.
Proof.
  destruct xs as [|x rest]; [discriminate|]. simpl.
  rewrite existsb_exists. intros [y [Hy Hxy]].
  exists x, y. split; [now left|]. split; [now right|].
  intros Heq. apply Qeq_bool_iff in Heq. rewrite Heq in Hxy. discriminate.
Qed.










Lemma varies_decide (xs : list Q) : varies xs \/ ~ varies xs.
Proof.
  destruct (variesb xs) eqn:E; [left; now apply variesb_sound|].
  right. intros (a & b & Ha & Hb & Hab).
  destruct xs as [|x rest]; [destruct Ha|]. cbn [variesb] in E.
  assert (Hx : forall y, In y (x :: rest) -> (x == y)%Q).
  { intros y [<-|Hy]; [reflexivity|].
    apply Qeq_bool_iff. destruct (Qeq_bool x y) eqn:Exy; [reflexivity|].
    assert (existsb (fun y => negb (Qeq_bool x y)) rest = true); [|congruence].
    apply existsb_exists. exists y. now rewrite Exy. }
  apply Hab. rewrite <- (Hx a Ha), <- (Hx b Hb). reflexivity.
Qed.




Section Correlation.

Context {FL : FloatLib}.






End Correlation.

Section Heatmap.

Context {RNG : NumpyRandom} {FL : FloatLib} {ST : ScipyStats}.

Lemma dataset_numeric_lengths (sd : Z) (n : nat) :
  Forall (fun xs => length xs = n)
         (map snd (numeric_only (items (dataset sd n)))).
Proof.
  rewrite numeric_only_items. cbn [map snd].
  pose proof (age_draw_length n (seed sd)) as Ha.
  pose proof (income_draw_length n (seed sd)) as Hi.
  pose proof (spending_draw_length n (seed sd)) as Hs.
  pose proof (premium_draw_length n (seed sd)) as Hp.
  unfold dataset, add_relationships, clipped_table.
  cbn [customer_id age income spending_score is_premium].
  unfold Series_add, Series_mul_scalar, Series_div_scalar.
  repeat apply List.Forall_cons; try apply List.Forall_nil;
    rewrite ?length_zip_with, ?length_map, ?length_zip_with, ?length_map,
      ?range_length; try lia.
Qed.

Lemma numeric_columns_five (data : DataFrame) (i : nat) :
  (i < 5)%nat -> is_Some (map snd (numeric_only (items data)) !! i).
Proof.
  intros Hi. apply lookup_lt_is_Some_2. rewrite numeric_only_items. simpl. lia.
Qed.




End Heatmap.

(** The four drawn numeric columns of the sample table vary: with the
    identifiers, all five diagonal entries of the sample run are 1. *)
Lemma sample_columns_vary :
  Forall varies
    [ age (dataset (RNG := sample_random) 42 n_samples);
      income (dataset (RNG := sample_random) 42 n_samples);
      spending_score (dataset (RNG := sample_random) 42 n_samples);
      map inject_Z (is_premium (dataset (RNG := sample_random) 42 n_samples)) ].
Proof.
  apply List.Forall_forall. intros xs Hxs. apply variesb_sound.
  assert (Hall : forallb variesb
            [ age (dataset (RNG := sample_random) 42 n_samples);
              income (dataset (RNG := sample_random) 42 n_samples);
              spending_score (dataset (RNG := sample_random) 42 n_samples);
              map inject_Z
                  (is_premium (dataset (RNG := sample_random) 42 n_samples)) ]
            = true)
    by (vm_compute; reflexivity).
  rewrite forallb_forall in Hall. apply Hall. exact Hxs.
Qed.



(* ================================================================== *)
(** * The statistical report *)
(* ================================================================== *)

Lemma format_f_fixed_point (d : nat) (q : Q) :
  fixed_point (S d) (format_f (S d) (Finite q)).
Proof. apply format_f_shape. Qed.


Lemma select_member {A} (xs : list A) (mask : list bool) (x : A) :
  In x (select xs mask) <->
  exists i, xs !! i = Some x /\ mask !! i = Some true.
Proof.
  unfold select. revert mask.
  induction xs as [|x0 xs IH]; intros mask.
  - simpl. split; [tauto|]. intros (i & Hi & _). destruct i; discriminate.
  - destruct mask as [|b mask].
    + simpl. split; [tauto|]. intros (i & _ & Hi). destruct i; discriminate.
    + change (zip (x0 :: xs) (b :: mask)) with ((x0, b) :: zip xs mask).
      cbn [List.filter snd]. destruct b; cbn [map fst In]; rewrite IH.
      * split.
        -- intros [<-|(i & Hx & Hm)]; [now exists 0%nat | now exists (S i)].
        -- intros ([|i] & Hx & Hm); [left; now injection Hx | right; now exists i].
      * split.
        -- intros (i & Hx & Hm). now exists (S i).
        -- intros ([|i] & Hx & Hm); [discriminate | now exists i].
Qed.

Lemma eq_mask_lookup (xs : list Z) (v : Z) (i : nat) :
  eq_mask xs v !! i = Some true <-> xs !! i = Some v.
Proof.
  unfold eq_mask. rewrite list_lookup_fmap.
  destruct (xs !! i) as [z|]; simpl; [|easy].
  split.
  - intros [= H]. apply Z.eqb_eq in H. now subst.
  - intros [= ->]. now rewrite Z.eqb_refl.
Qed.




(** The text of the report from its ingredients, as lines 109-118 lay
    it out. *)
Lemma report_lines_text (premium non_premium : list Q) (t_stat p_value : float64) :
  String.concat "" (report_lines premium non_premium t_stat p_value) =
  "Statistical Analysis Results" +:+ nl
  +:+ "========================================" +:+ nl +:+ nl
  +:+ "Premium customers: " +:+ str_nat (length premium) +:+ nl
  +:+ "Non-premium customers: " +:+ str_nat (length non_premium) +:+ nl +:+ nl
  +:+ "Mean spending (premium): $" +:+ format_f 2 (mean premium) +:+ nl
  +:+ "Mean spending (non-premium): $" +:+ format_f 2 (mean non_premium)
  +:+ nl +:+ nl
  +:+ "T-test results:" +:+ nl
  +:+ "  t-statistic: " +:+ format_f 4 t_stat +:+ nl
  +:+ "  p-value: " +:+ format_f 6 p_value +:+ nl
  +:+ "  Significant at p < 0.05: "
  +:+ (if significant p_value then "YES" else "NO") +:+ nl.
Proof.
  unfold report_lines. rewrite !concat_empty_cons.
  change (String.concat "" []) with "".
  change (replicate_char 40 "=") with "========================================".
  rewrite !app_string_assoc. now rewrite app_string_empty_r.
Qed.

Section Report.

Context {RNG : NumpyRandom} {FL : FloatLib} {ST : ScipyStats}.

(** The two groups are the scores of the rows flagged 1 and of the rows
    flagged 0. *)
Lemma premium_scores_member (data : DataFrame) (x : Q) :
  In x (premium_scores data) <->
  exists i, spending_score data !! i = Some x /\ is_premium data !! i = Some 1%Z.
Proof.
  unfold premium_scores. rewrite select_member.
  split; intros (i & Hx & Hm); exists i; split; try exact Hx;
    now apply eq_mask_lookup.
Qed.

Lemma non_premium_scores_member (data : DataFrame) (x : Q) :
  In x (non_premium_scores data) <->
  exists i, spending_score data !! i = Some x /\ is_premium data !! i = Some 0%Z.
Proof.
  unfold non_premium_scores. rewrite select_member.
  split; intros (i & Hx & Hm); exists i; split; try exact Hx;
    now apply eq_mask_lookup.
Qed.


(** C3, amended.  An empty group is not an error: with the results
    directory in place the analysis completes, and the report prints
    the size 0 and the mean [nan] of the empty group, [nan] for the
    statistic and the p-value, and the verdict NO. *)
Theorem empty_group_report_has_nan (data : DataFrame) (w : World) :
  "results" ∈ dirs w ->
  premium_scores data = [] \/ non_premium_scores data = [] ->
  fst (statistical_analysis data w) = inr tt
  /\ files (snd (statistical_analysis data w)) !! "results/statistical_analysis.txt"
     = Some (Text
         ("Statistical Analysis Results" +:+ nl
          +:+ "========================================" +:+ nl +:+ nl
          +:+ "Premium customers: " +:+ str_nat (length (premium_scores data))
          +:+ nl
          +:+ "Non-premium customers: "
          +:+ str_nat (length (non_premium_scores data)) +:+ nl +:+ nl
          +:+ "Mean spending (premium): $"
          +:+ format_f 2 (mean (premium_scores data)) +:+ nl
          +:+ "Mean spending (non-premium): $"
          +:+ format_f 2 (mean (non_premium_scores data)) +:+ nl +:+ nl
          +:+ "T-test results:" +:+ nl
          +:+ "  t-statistic: nan" +:+ nl
          +:+ "  p-value: nan" +:+ nl
          +:+ "  Significant at p < 0.05: NO" +:+ nl))
  /\ (premium_scores data = [] ->
        str_nat (length (premium_scores data)) = "0"
        /\ format_f 2 (mean (premium_scores data)) = "nan")
  /\ (non_premium_scores data = [] ->
        str_nat (length (non_premium_scores data)) = "0"
        /\ format_f 2 (mean (non_premium_scores data)) = "nan").
Proof.
  intros Hr Hempty. rewrite statistical_analysis_run by exact Hr.
  split; [reflexivity|]. split.
  - unfold after_analysis. cbn [snd].
    rewrite files_printed, files_written, lookup_insert_eq. unfold report.
    rewrite (ttest_ind_empty _ _ true Hempty), report_lines_text.
    reflexivity.
  - split; intros ->; split; reflexivity.
Qed.

End Report.


(** C3, refuted.  On a table whose premium group is empty the analysis
    raises nothing: it returns normally and writes a report with [nan]
    for the mean of the empty group, the statistic and the p-value. *)
Lemma empty_premium_group_raises_nothing :
  premium_scores one_customer = []
  /\ fst (statistical_analysis (RNG := sample_random) (ST := sample_stats)
            one_customer fresh_world) = inr tt
  /\ files (snd (statistical_analysis one_customer fresh_world))
       !! "results/statistical_analysis.txt"
     = Some (Text
         ("Statistical Analysis Results" +:+ nl
          +:+ "========================================" +:+ nl +:+ nl
          +:+ "Premium customers: 0" +:+ nl
          +:+ "Non-premium customers: 1" +:+ nl +:+ nl
          +:+ "Mean spending (premium): $nan" +:+ nl
          +:+ "Mean spending (non-premium): $65.60" +:+ nl +:+ nl
          +:+ "T-test results:" +:+ nl
          +:+ "  t-statistic: nan" +:+ nl
          +:+ "  p-value: nan" +:+ nl
          +:+ "  Significant at p < 0.05: NO" +:+ nl)).
Proof. vm_compute. repeat split; reflexivity. Qed.

(** The amended C3 on the table of one customer. *)
Lemma empty_group_report_has_nan_witness :
  fst (statistical_analysis (RNG := sample_random) (ST := sample_stats)
         one_customer fresh_world) = inr tt
  /\ files (snd (statistical_analysis one_customer fresh_world))
       !! "results/statistical_analysis.txt"
     = Some (Text
         ("Statistical Analysis Results" +:+ nl
          +:+ "========================================" +:+ nl +:+ nl
          +:+ "Premium customers: "
          +:+ str_nat (length (premium_scores one_customer)) +:+ nl
          +:+ "Non-premium customers: "
          +:+ str_nat (length (non_premium_scores one_customer)) +:+ nl +:+ nl
          +:+ "Mean spending (premium): $"
          +:+ format_f 2 (mean (premium_scores one_customer)) +:+ nl
          +:+ "Mean spending (non-premium): $"
          +:+ format_f 2 (mean (non_premium_scores one_customer)) +:+ nl +:+ nl
          +:+ "T-test results:" +:+ nl
          +:+ "  t-statistic: nan" +:+ nl
          +:+ "  p-value: nan" +:+ nl
          +:+ "  Significant at p < 0.05: NO" +:+ nl))
  /\ (premium_scores one_customer = [] ->
        str_nat (length (premium_scores one_customer)) = "0"
        /\ format_f 2 (mean (premium_scores one_customer)) = "nan")
  /\ (non_premium_scores one_customer = [] ->
        str_nat (length (non_premium_scores one_customer)) = "0"
        /\ format_f 2 (mean (non_premium_scores one_customer)) = "nan").
Proof.
  apply (empty_group_report_has_nan (RNG := sample_random)
           (ST := sample_stats) one_customer fresh_world).
  - apply fresh_world_directories.
  - left. reflexivity.
Defined.

(** The projections of the three world transformers, as rewrite rules. *)
Create Rewrite HintDb world_effects.
#[global] Hint Rewrite @np_random_printed @dirs_printed @files_printed
  @stdout_printed @np_random_written @dirs_written @files_written
  @stdout_written @np_random_with_generator @dirs_with_generator
  @files_with_generator @stdout_with_generator : world_effects.

(* ================================================================== *)
(** * Further properties: failed and repeated runs *)
(* ================================================================== *)

(** The five paths the script writes, in the order of the writes. *)
Definition output_paths : list string :=
  [ "data/raw_customer_data.csv";
    "results/summary_statistics.csv";
    "results/distributions.png";
    "results/correlation_matrix.png";
    "results/statistical_analysis.txt" ].

(** A world with the data directory only. *)
Definition data_only_world : World :=
  {| np_random := 0%Z; dirs := {["data"]}; files := ∅; stdout := [] |}.

Section FailedRuns.

Context {RNG : NumpyRandom} {FL : FloatLib} {ST : ScipyStats}.

Ltac step_print := rewrite (bind_inr _ _ _ _ _ (print_run _ _)); cbv beta.

(** The world in which stage 2 starts: the generator advanced by the
    five draws and the overview printed. *)
Definition before_files (seed_value : Z) (n : nat) (w : World) : World :=
  printed ("   Columns: " +:+ join ", " (columns (dataset seed_value n)))
    (printed ("   Features: "
              +:+ str_nat (length (columns (dataset seed_value n))))
       (printed ("   Samples: " +:+ str_nat (len (dataset seed_value n)))
          (printed "📊 Data Overview:"
             (with_generator (snd (premium_draw n (seed seed_value)))
                (printed (replicate_char 50 "=")
                   (printed "🚀 Starting Data Analysis Pipeline" w)))))).

Lemma before_files_dirs sd n w : dirs (before_files sd n w) = dirs w.
Proof. reflexivity. Qed.

Lemma before_files_files sd n w : files (before_files sd n w) = files w.
Proof. reflexivity. Qed.

Lemma before_files_generator sd n w :
  np_random (before_files sd n w) = snd (premium_draw n (seed sd)).
Proof. reflexivity. Qed.

Lemma before_files_stdout sd n w :
  stdout (before_files sd n w) = stdout w ++ firstn 6 (console (dataset sd n)).
Proof.
  unfold before_files. autorewrite with world_effects.
  repeat rewrite <- app_assoc. reflexivity.
Qed.

(** X1.  Without the [data] directory the script stops at line 42 with
    an [OSError] for the raw-data path: the table has been generated
    (the generator is advanced) and the six lines of the overview are
    printed, but no file is written or changed and no directory is
    created. *)
Theorem script_without_data_directory (seed_value : Z) (n : nat) (w : World) :
  "data" ∉ dirs w ->
  fst (script seed_value n w) = inl (OSError "data/raw_customer_data.csv")
  /\ files (snd (script seed_value n w)) = files w
  /\ dirs (snd (script seed_value n w)) = dirs w
  /\ np_random (snd (script seed_value n w))
     = snd (premium_draw n (seed seed_value))
  /\ stdout (snd (script seed_value n w))
     = stdout w ++ firstn 6 (console (dataset seed_value n)).
Proof.
  intros Hd.
  assert (Hrun : script seed_value n w
                 = (inl (OSError "data/raw_customer_data.csv"),
                    before_files seed_value n w)).
  { unfold script. step_print. step_print.
    rewrite (bind_inr _ _ _ _ _ (generate_data_run _ _ _)). cbv beta.
    step_print. step_print. step_print. step_print.
    apply bind_inl. unfold save_raw_data.
    apply write_file_missing; [discriminate | exact Hd]. }
  rewrite Hrun. cbn [fst snd].
  rewrite before_files_stdout. repeat split; reflexivity.
Qed.

(** X2.  With [data] but without [results] the script writes the raw
    data, prints its confirmation, and stops at line 47 with an
    [OSError] for the summary path: the raw-data file is the only file
    written. *)
Theorem script_without_results_directory (seed_value : Z) (n : nat) (w : World) :
  "data" ∈ dirs w -> "results" ∉ dirs w ->
  fst (script seed_value n w) = inl (OSError "results/summary_statistics.csv")
  /\ files (snd (script seed_value n w))
     = <["data/raw_customer_data.csv" :=
           Text (data_csv false (dataset seed_value n))]> (files w)
  /\ dirs (snd (script seed_value n w)) = dirs w
  /\ stdout (snd (script seed_value n w))
     = stdout w ++ firstn 7 (console (dataset seed_value n)).
Proof.
  intros Hd Hr.
  assert (Hrun : script seed_value n w
                 = (inl (OSError "results/summary_statistics.csv"),
                    printed "💾 Saved raw data to: data/raw_customer_data.csv"
                      (after_raw_data (dataset seed_value n)
                         (before_files seed_value n w)))).
  { unfold script. step_print. step_print.
    rewrite (bind_inr _ _ _ _ _ (generate_data_run _ _ _)). cbv beta.
    step_print. step_print. step_print. step_print.
    erewrite bind_inr by (apply save_raw_data_run; exact Hd). cbv beta.
    step_print.
    apply bind_inl. unfold save_summary.
    apply write_file_missing; [discriminate | exact Hr]. }
  rewrite Hrun. cbn [fst snd]. unfold after_raw_data.
  autorewrite with world_effects.
  rewrite before_files_stdout, before_files_files, before_files_dirs.
  repeat split; try reflexivity.
  rewrite <- app_assoc. reflexivity.
Qed.

End FailedRuns.

Lemma bare_world_no_data : "data" ∉ dirs bare_world.
Proof. unfold bare_world. cbn [dirs]. set_solver. Qed.

Lemma data_only_world_dirs :
  "data" ∈ dirs data_only_world /\ "results" ∉ dirs data_only_world.
Proof. unfold data_only_world. cbn [dirs]. split; set_solver. Qed.

(** X1 on the sample instances, in a world without directories. *)
Lemma script_without_data_directory_witness :
  fst (script (RNG := sample_random) (FL := sample_floats) (ST := sample_stats)
              42 n_samples bare_world)
  = inl (OSError "data/raw_customer_data.csv")
  /\ files (snd (script 42 n_samples bare_world)) = files bare_world
  /\ dirs (snd (script 42 n_samples bare_world)) = dirs bare_world
  /\ np_random (snd (script 42 n_samples bare_world))
     = snd (premium_draw n_samples (seed 42))
  /\ stdout (snd (script 42 n_samples bare_world))
     = stdout bare_world ++ firstn 6 (console (dataset 42 n_samples)).
Proof.
  apply (script_without_data_directory (RNG := sample_random)
           (FL := sample_floats) (ST := sample_stats) 42 n_samples bare_world).
  exact bare_world_no_data.
Defined.

(** X2 on the sample instances, in a world with [data] only. *)
Lemma script_without_results_directory_witness :
  fst (script (RNG := sample_random) (FL := sample_floats) (ST := sample_stats)
              42 n_samples data_only_world)
  = inl (OSError "results/summary_statistics.csv")
  /\ files (snd (script 42 n_samples data_only_world))
     = <["data/raw_customer_data.csv" :=
           Text (data_csv false (dataset 42 n_samples))]> (files data_only_world)
  /\ dirs (snd (script 42 n_samples data_only_world)) = dirs data_only_world
  /\ stdout (snd (script 42 n_samples data_only_world))
     = stdout data_only_world ++ firstn 7 (console (dataset 42 n_samples)).
Proof.
  apply (script_without_results_directory (RNG := sample_random)
           (FL := sample_floats) (ST := sample_stats)
           42 n_samples data_only_world).
  - exact (proj1 data_only_world_dirs).
  - exact (proj2 data_only_world_dirs).
Defined.

Section CompleteRuns.

Context {RNG : NumpyRandom} {FL : FloatLib} {ST : ScipyStats}.


Lemma output_files_other (data : DataFrame) (fs : gmap string FileContent)
    (path : string) :
  ~ In path output_paths -> output_files data fs !! path = fs !! path.
Proof.
  intros Hp. unfold output_files.
  rewrite !lookup_insert_ne; [reflexivity| | | | |];
    intros <-; apply Hp; unfold output_paths; simpl; tauto.
Qed.

Lemma output_files_dom (data : DataFrame) (fs : gmap string FileContent) :
  dom (output_files data fs) = list_to_set output_paths ∪ dom fs.
Proof.
  unfold output_files, output_paths. rewrite !dom_insert_L. simpl.
  apply set_eq. intros x.
  rewrite !elem_of_union, !elem_of_singleton, elem_of_empty. tauto.
Qed.

(** What a complete run leaves at each of its paths does not depend on
    the files that were there. *)
Lemma output_files_content (data : DataFrame) (path : string) :
  In path output_paths ->
  exists content, forall fs, output_files data fs !! path = Some content.
Proof.
  unfold output_paths. simpl.
  intros [<-|[<-|[<-|[<-|[<-|[]]]]]]; eexists; intros fs; unfold output_files;
    repeat (rewrite lookup_insert_ne by discriminate); apply lookup_insert_eq.
Qed.


(** X3.  A complete run touches nothing but its five paths: every other
    file is as it was, the set of files grows by exactly the five, no
    directory is created or removed, and the generator is left in the
    state after the five draws of stage 1 (no later stage draws). *)
Theorem script_changes_only_its_outputs (seed_value : Z) (n : nat) (w : World) :
  directories_exist w ->
  (forall path, ~ In path output_paths ->
     files (snd (script seed_value n w)) !! path = files w !! path)
  /\ dom (files (snd (script seed_value n w)))
     = list_to_set output_paths ∪ dom (files w)
  /\ (forall path, In path output_paths ->
        is_Some (files (snd (script seed_value n w)) !! path))
  /\ dirs (snd (script seed_value n w)) = dirs w
  /\ np_random (snd (script seed_value n w))
     = np_random (snd (generate_data seed_value n w)).
Proof.
  intros H. rewrite script_run by exact H. rewrite generate_data_run.
  unfold after_script. cbn [snd files dirs np_random with_generator].
  split; [intros path Hp; now apply output_files_other|].
  split; [apply output_files_dom|].
  split; [|split; reflexivity].
  intros path Hp. apply elem_of_dom. rewrite output_files_dom.
  apply elem_of_union_l, elem_of_list_to_set, list_elem_of_In. exact Hp.
Qed.


(** X5.  The files of a complete run do not depend on the world it
    starts in, beyond the two directories: whatever the generator
    state, the files present and the lines printed before, each of the
    five paths ends with the same content. *)
Theorem script_outputs_reproducible (seed_value : Z) (n : nat) (w1 w2 : World)
    (path : string) :
  directories_exist w1 -> directories_exist w2 -> In path output_paths ->
  files (snd (script seed_value n w1)) !! path
  = files (snd (script seed_value n w2)) !! path
  /\ is_Some (files (snd (script seed_value n w1)) !! path).
Proof.
  intros H1 H2 Hp. rewrite !script_run by assumption.
  unfold after_script. cbn [snd files].
  destruct (output_files_content (dataset seed_value n) path Hp) as [c Hc].
  rewrite !Hc. split; [reflexivity | eauto].
Qed.

End CompleteRuns.

(** X3 on the sample instances. *)
Lemma script_changes_only_its_outputs_witness :
  (forall path, ~ In path output_paths ->
     files (snd (script (RNG := sample_random) (FL := sample_floats)
                        (ST := sample_stats) 42 n_samples fresh_world)) !! path
     = files fresh_world !! path)
  /\ dom (files (snd (script 42 n_samples fresh_world)))
     = list_to_set output_paths ∪ dom (files fresh_world)
  /\ (forall path, In path output_paths ->
        is_Some (files (snd (script 42 n_samples fresh_world)) !! path))
  /\ dirs (snd (script 42 n_samples fresh_world)) = dirs fresh_world
  /\ np_random (snd (script 42 n_samples fresh_world))
     = np_random (snd (generate_data 42 n_samples fresh_world)).
Proof.
  apply (script_changes_only_its_outputs (RNG := sample_random)
           (FL := sample_floats) (ST := sample_stats) 42 n_samples fresh_world).
  exact fresh_world_directories.
Defined.


(** A second world with both directories: another generator state, a
    file already in place and a line already printed. *)
Definition used_world : World :=
  {| np_random := 7%Z;
     dirs := {["data"; "results"; "archive"]};
     files := {["data/raw_customer_data.csv" := Text "stale"]};
     stdout := ["earlier output"] |}.

Lemma used_world_directories : directories_exist used_world.
Proof.
  unfold directories_exist, used_world. cbn [dirs].
  split; apply elem_of_union; left; apply elem_of_union;
    [left | right]; now apply elem_of_singleton.
Qed.

(** X5 on the sample instances, for the report, from the fresh world
    and from the used one. *)
Lemma script_outputs_reproducible_witness :
  files (snd (script (RNG := sample_random) (FL := sample_floats)
                     (ST := sample_stats) 42 n_samples fresh_world))
    !! "results/statistical_analysis.txt"
  = files (snd (script 42 n_samples used_world))
      !! "results/statistical_analysis.txt"
  /\ is_Some (files (snd (script 42 n_samples fresh_world))
                !! "results/statistical_analysis.txt").
Proof.
  apply (script_outputs_reproducible (RNG := sample_random)
           (FL := sample_floats) (ST := sample_stats) 42 n_samples
           fresh_world used_world "results/statistical_analysis.txt").
  - exact fresh_world_directories.
  - exact used_world_directories.
  - unfold output_paths. simpl. tauto.
Defined.

(* ================================================================== *)
(** * The rows of the generated table *)
(* ================================================================== *)

(** The two masks of lines 103-104 split a column whose flags are all 0
    or 1: every value goes to exactly one side. *)
Lemma select_flags_partition {A} (xs : list A) (flags : list Z) :
  length xs = length flags ->
  Forall (fun p => p = 0%Z \/ p = 1%Z) flags ->
  (length (select xs (eq_mask flags 1)) + length (select xs (eq_mask flags 0))
   = length xs)%nat.
Proof.
  unfold select, eq_mask. revert flags.
  induction xs as [|x xs IH]; intros [|p flags] Hlen Hall; try discriminate;
    [reflexivity|].
  inversion Hall as [|? ? Hp Hrest]; subst.
  injection Hlen as Hlen. specialize (IH flags Hlen Hrest).
  cbn [map].
  destruct Hp as [-> | ->];
    cbn [Z.eqb Pos.eqb map length List.filter snd zip zip_with]; lia.
Qed.

Lemma Qsum_bounds (lo hi : Q) (xs : list Q) :
  Forall (fun x => (lo <= x)%Q /\ (x <= hi)%Q) xs ->
  (lo * Qlen xs <= Qsum xs)%Q /\ (Qsum xs <= hi * Qlen xs)%Q.
Proof.
  unfold Qlen. induction xs as [|x xs IH]; intros Hall.
  - cbn [length Qsum fold_right]. change (inject_Z (Z.of_nat 0)) with 0%Q.
    split; lra.
  - inversion Hall as [|? ? [Hlo Hhi] Hrest]; subst.
    destruct (IH Hrest) as [IHlo IHhi].
    cbn [Qsum fold_right length]. fold (Qsum xs).
    rewrite Nat2Z.inj_succ. unfold Z.succ. rewrite inject_Z_plus.
    change (inject_Z 1) with 1%Q. split; lra.
Qed.

(** The mean of a column that is not empty lies between any two bounds
    of its values. *)
Lemma mean_bounds (lo hi : Q) (xs : list Q) :
  xs <> [] ->
  Forall (fun x => (lo <= x)%Q /\ (x <= hi)%Q) xs ->
  exists m, mean xs = Finite m /\ (lo <= m)%Q /\ (m <= hi)%Q.
Proof.
  intros Hne Hall. destruct xs as [|x xs]; [easy|].
  exists (Qsum (x :: xs) / Qlen (x :: xs))%Q. split; [reflexivity|].
  destruct (Qsum_bounds lo hi _ Hall) as [Hlo Hhi].
  assert (Hpos : (0 < Qlen (x :: xs))%Q).
  { unfold Qlen. cbn [length]. rewrite Nat2Z.inj_succ.
    change 0%Q with (inject_Z 0). rewrite <- Zlt_Qlt. lia. }
  split.
  - apply Qle_shift_div_l; assumption.
  - apply Qle_shift_div_r; assumption.
Qed.

Lemma row_spending_range (za zi zs : Q) :
  (788 # 100 <= row_spending_score za zi zs)%Q
  /\ (row_spending_score za zi zs <= 1412 # 10)%Q.
Proof.
  unfold row_spending_score.
  pose proof (row_income_range za zi) as [Hlo Hhi].
  pose proof (clip_between 1 100 zs ltac:(lra)) as [? ?].
  assert (688 # 100 <= row_income za zi / 5000)%Q
    by (apply Qle_shift_div_l; lra).
  assert (row_income za zi / 5000 <= 412 # 10)%Q
    by (apply Qle_shift_div_r; lra).
  split; lra.
Qed.

Section GeneratedRows.

Context {RNG : NumpyRandom}.

Lemma dataset_spending_range (sd : Z) (n : nat) :
  Forall (fun x => (788 # 100 <= x)%Q /\ (x <= 1412 # 10)%Q)
         (spending_score (dataset sd n)).
Proof.
  apply Forall_lookup. intros i x. rewrite dataset_spending_lookup.
  destruct (fst (age_draw n (seed sd)) !! i) as [za|]; [|discriminate].
  destruct (fst (income_draw n (seed sd)) !! i) as [zi|]; [|discriminate].
  destruct (fst (spending_draw n (seed sd)) !! i) as [zs|]; [|discriminate].
  intros [= <-]. apply row_spending_range.
Qed.


Lemma dataset_is_premium (sd : Z) (n : nat) :
  is_premium (dataset sd n) = fst (premium_draw n (seed sd)).
Proof. reflexivity. Qed.

Lemma dataset_flags (sd : Z) (n : nat) :
  Forall (fun p => p = 0%Z \/ p = 1%Z) (is_premium (dataset sd n)).
Proof.
  rewrite dataset_is_premium. apply List.Forall_forall. intros p Hp.
  unfold premium_draw in Hp. apply choice_member in Hp.
  destruct Hp as [<-|[<-|[]]]; [now left | now right].
Qed.

Lemma dataset_lengths (sd : Z) (n : nat) :
  length (customer_id (dataset sd n)) = n
  /\ length (age (dataset sd n)) = n
  /\ length (income (dataset sd n)) = n
  /\ length (spending_score (dataset sd n)) = n
  /\ length (region (dataset sd n)) = n
  /\ length (is_premium (dataset sd n)) = n.
Proof.
  pose proof (age_draw_length n (seed sd)) as Ha.
  pose proof (income_draw_length n (seed sd)) as Hi.
  pose proof (spending_draw_length n (seed sd)) as Hs.
  pose proof (region_draw_length n (seed sd)) as Hr.
  pose proof (premium_draw_length n (seed sd)) as Hp.
  unfold dataset, add_relationships, clipped_table.
  cbn [customer_id age income spending_score region is_premium].
  unfold Series_add, Series_mul_scalar, Series_div_scalar.
  rewrite ?length_zip_with, ?length_map, ?length_zip_with, ?length_map,
    ?range_length.
  repeat split; lia.
Qed.


(** X7.  The two groups of the analysis split the customers: every
    spending score is in exactly one of them, so the number of premium
    customers and the number of the others add up to the number of
    rows. *)
Theorem groups_partition_customers (seed_value : Z) (n : nat) (w : World) :
  exists data : DataFrame,
    fst (generate_data seed_value n w) = inr data
    /\ (length (premium_scores data) + length (non_premium_scores data)
        = len data)%nat
    /\ len data = n
    /\ (forall i x, spending_score data !! i = Some x ->
          (is_premium data !! i = Some 1%Z /\ In x (premium_scores data))
          \/ (is_premium data !! i = Some 0%Z /\ In x (non_premium_scores data))).
Proof.
  exists (dataset seed_value n).
  split; [apply generate_data_value|].
  destruct (dataset_lengths seed_value n) as (Hc & _ & _ & Hs & _ & Hp).
  split; [|split].
  - unfold premium_scores, non_premium_scores, len.
    rewrite select_flags_partition; [congruence | congruence | apply dataset_flags].
  - exact Hc.
  - intros i x Hx.
    destruct (lookup_lt_is_Some_2 (is_premium (dataset seed_value n)) i)
      as [p Hpi].
    { rewrite Hp, <- Hs. now apply lookup_lt_Some in Hx. }
    pose proof (dataset_flags seed_value n) as Hflags.
    rewrite Forall_lookup in Hflags. destruct (Hflags i p Hpi) as [-> | ->].
    + right. split; [exact Hpi|].
      unfold non_premium_scores. apply select_member. exists i.
      split; [exact Hx | now apply eq_mask_lookup].
    + left. split; [exact Hpi|].
      unfold premium_scores. apply select_member. exists i.
      split; [exact Hx | now apply eq_mask_lookup].
Qed.

(** X8.  In every row the final spending score lies in [7.88, 141.2]:
    the clipped draw is in [1, 100] and the income over 5000 adds
    between 6.88 and 41.2. *)
Theorem final_spending_score_range (seed_value : Z) (n : nat) (w : World) :
  exists data : DataFrame,
    fst (generate_data seed_value n w) = inr data
    /\ Forall (fun s => (788 # 100 <= s)%Q /\ (s <= 1412 # 10)%Q)
              (spending_score data)
    /\ (forall i s, spending_score data !! i = Some s ->
          exists c x, income data !! i = Some x
                      /\ (1 <= c)%Q /\ (c <= 100)%Q
                      /\ s = (c + x / 5000)%Q).
Proof.
  exists (dataset seed_value n).
  split; [apply generate_data_value|].
  split; [apply dataset_spending_range|].
  intros i s. rewrite dataset_spending_lookup, dataset_income_lookup.
  destruct (fst (age_draw n (seed seed_value)) !! i) as [za|]; [|discriminate].
  destruct (fst (income_draw n (seed seed_value)) !! i) as [zi|];
    [|discriminate].
  destruct (fst (spending_draw n (seed seed_value)) !! i) as [zs|];
    [|discriminate].
  intros [= <-]. exists (clip 1 100 zs), (row_income za zi).
  pose proof (clip_between 1 100 zs ltac:(lra)) as [? ?].
  repeat split; assumption.
Qed.

(** X9.  The mean printed for a group that is not empty is a number
    between 7.88 and 141.2, the bounds of the spending scores: it is
    never [nan] and never negative. *)
Theorem group_mean_within_score_range (seed_value : Z) (n : nat)
    (group : list Q) :
  group = premium_scores (dataset seed_value n)
  \/ group = non_premium_scores (dataset seed_value n) ->
  group <> [] ->
  exists m : Q,
    mean group = Finite m
    /\ (788 # 100 <= m)%Q /\ (m <= 1412 # 10)%Q
    /\ fixed_point 2 (format_f 2 (mean group)).
Proof.
  intros Hgroup Hne.
  assert (Hall : Forall (fun x => (788 # 100 <= x)%Q /\ (x <= 1412 # 10)%Q)
                        group).
  { pose proof (dataset_spending_range seed_value n) as Hrange.
    rewrite Forall_lookup in Hrange.
    apply List.Forall_forall. intros x Hx.
    destruct Hgroup as [-> | ->].
    - apply premium_scores_member in Hx as (i & Hi & _). now apply (Hrange i).
    - apply non_premium_scores_member in Hx as (i & Hi & _).
      now apply (Hrange i). }
  destruct (mean_bounds _ _ group Hne Hall) as (m & Hm & Hlo & Hhi).
  exists m. rewrite Hm. repeat split; try assumption.
  apply format_f_fixed_point.
Qed.

End GeneratedRows.

(** Both groups of the sample run have members. *)
Lemma sample_groups_nonempty :
  premium_scores (dataset (RNG := sample_random) 42 n_samples) <> []
  /\ non_premium_scores (dataset (RNG := sample_random) 42 n_samples) <> [].
Proof.
  split; intros H; apply (f_equal (fun l => Nat.eqb (length l) 0)) in H;
    revert H; vm_compute; discriminate.
Qed.

(** X9 for the premium group of the sample run. *)
Lemma group_mean_within_score_range_witness :
  exists m : Q,
    mean (premium_scores (dataset (RNG := sample_random) 42 n_samples))
    = Finite m
    /\ (788 # 100 <= m)%Q /\ (m <= 1412 # 10)%Q
    /\ fixed_point 2
         (format_f 2
            (mean (premium_scores (dataset (RNG := sample_random) 42 n_samples)))).
Proof.
  apply (group_mean_within_score_range (RNG := sample_random) 42 n_samples
           (premium_scores (dataset (RNG := sample_random) 42 n_samples))).
  - left. reflexivity.
  - exact (proj1 sample_groups_nonempty).
Defined.

(* ================================================================== *)
(** * The two CSV files, read back *)
(* ================================================================== *)

Lemma nth_fmap_lookup {A} (f : A -> string) (col : list A) (i : nat) (v : A) :
  col !! i = Some v -> nth i (map f col) "" = f v.
Proof.
  intros H. apply nth_lookup_Some. now rewrite list_lookup_fmap, H.
Qed.

(** The records of a table written with its index: a label and the
    cells of the row. *)
Lemma labelled_rows_plain (labels : list string) (c1 : list string)
    (cols : list (list string)) :
  Forall plain_field labels ->
  Forall (Forall plain_field) (c1 :: cols) ->
  Forall plain_record
         (zip_with cons labels (csv_rows (length labels) (c1 :: cols))).
Proof.
  intros Hlabels Hcols. apply Forall_lookup. intros i r Hr.
  apply lookup_zip_with_Some in Hr as (label & cells0 & -> & Hl & Hc).
  rewrite csv_rows_lookup in Hc by (now apply lookup_lt_Some in Hl).
  injection Hc as <-. split.
  - cbn [map]. apply join_two_nonblank.
  - apply List.Forall_cons.
    + rewrite Forall_lookup in Hlabels. now apply (Hlabels i).
    + change (Forall plain_field (map (fun col => nth i col "") (c1 :: cols))).
      apply List.Forall_map. eapply List.Forall_impl; [|exact Hcols].
      intros col Hcol. now apply plain_field_nth.
Qed.

Section CsvFiles.

Context {RNG : NumpyRandom} {FL : FloatLib} {ST : ScipyStats}.

Lemma csv_float_plain (x : float64) : plain_field (csv_float x).
Proof.
  destruct x as [q| | |]; cbn [csv_float];
    [apply float_repr_plain | apply plain_fieldb_sound; reflexivity ..].
Qed.

Lemma describe_index_plain : Forall plain_field describe_index.
Proof.
  unfold describe_index.
  repeat (apply List.Forall_cons; [apply plain_fieldb_sound; reflexivity|]).
  apply List.Forall_nil.
Qed.

Lemma summary_header_plain : plain_record ("" :: numeric_column_names).
Proof.
  split; [discriminate|].
  repeat (apply List.Forall_cons; [apply plain_fieldb_sound; reflexivity|]).
  apply List.Forall_nil.
Qed.

(** The statistics of the five numeric columns, in their order. *)
Lemma describe_items (data : DataFrame) :
  describe (items data) =
  [ ("customer_id", describe_column (map inject_Z (customer_id data)));
    ("age", describe_column (age data));
    ("income", describe_column (income data));
    ("spending_score", describe_column (spending_score data));
    ("is_premium", describe_column (map inject_Z (is_premium data))) ].
Proof. unfold describe. rewrite numeric_only_items. reflexivity. Qed.

(** X10.  The raw-data file of a complete run holds the table row by
    row: read back, record [i] is the identifier, the three floats in
    their shortest representation, the region and the premium flag of
    row [i] of the table in memory, in the order of the columns. *)
Theorem raw_data_records_are_the_rows (seed_value : Z) (n : nat) (w : World) :
  directories_exist w ->
  exists (data : DataFrame) (text : string) (records : list (list string)),
    fst (script seed_value n w) = inr data
    /\ files (snd (script seed_value n w)) !! "data/raw_customer_data.csv"
       = Some (Text text)
    /\ read_csv text = (column_names, records)
    /\ length records = n
    /\ (forall i, (i < n)%nat ->
          exists (id : Z) (a x s : Q) (r : string) (p : Z),
            customer_id data !! i = Some id
            /\ age data !! i = Some a
            /\ income data !! i = Some x
            /\ spending_score data !! i = Some s
            /\ region data !! i = Some r
            /\ is_premium data !! i = Some p
            /\ records !! i =
               Some [ str_Z id; float_repr a; float_repr x; float_repr s;
                      r; str_Z p ]).
Proof.
  intros H. set (data := dataset seed_value n).
  exists data, (data_csv false data),
         (csv_rows (len data) (map (fun c => cells (snd c)) (items data))).
  split; [now apply script_value|].
  split; [now apply raw_data_file|].
  split.
  { rewrite data_csv_text.
    apply read_csv_csv_text;
      [apply column_names_plain | apply dataset_records_plain]. }
  split; [rewrite csv_rows_length; apply len_dataset|].
  intros i Hi.
  destruct (dataset_lengths seed_value n) as (Hc & Ha & Hx & Hs & Hr & Hp).
  fold data in Hc, Ha, Hx, Hs, Hr, Hp.
  destruct (lookup_lt_is_Some_2 (customer_id data) i) as [id Hid]; [lia|].
  destruct (lookup_lt_is_Some_2 (age data) i) as [a Hai]; [lia|].
  destruct (lookup_lt_is_Some_2 (income data) i) as [x Hxi]; [lia|].
  destruct (lookup_lt_is_Some_2 (spending_score data) i) as [s Hsi]; [lia|].
  destruct (lookup_lt_is_Some_2 (region data) i) as [r Hri]; [lia|].
  destruct (lookup_lt_is_Some_2 (is_premium data) i) as [p Hpi]; [lia|].
  exists id, a, x, s, r, p. do 6 (split; [assumption|]).
  unfold data at 1. rewrite len_dataset, csv_rows_lookup by exact Hi.
  cbn [items map snd cells].
  rewrite (nth_fmap_lookup _ _ _ _ Hid), (nth_fmap_lookup _ _ _ _ Hai),
    (nth_fmap_lookup _ _ _ _ Hxi), (nth_fmap_lookup _ _ _ _ Hsi),
    (nth_fmap_lookup _ _ _ _ Hpi), (nth_lookup_Some _ _ _ _ Hri).
  reflexivity.
Qed.

(** X11.  The summary file of a complete run is written with its
    index: read back, its header is an unnamed first column and the
    five numeric column names, and it has eight records of six fields,
    each starting with the name of its statistic; the record [count]
    holds the number of rows in every column. *)
Theorem summary_csv_reads_back (seed_value : Z) (n : nat) (w : World) :
  directories_exist w ->
  exists (text : string) (records : list (list string)),
    files (snd (script seed_value n w)) !! "results/summary_statistics.csv"
    = Some (Text text)
    /\ read_csv text = ("" :: numeric_column_names, records)
    /\ length records = 8%nat
    /\ Forall (fun r => length r = 6%nat) records
    /\ map (hd "") records = describe_index
    /\ records !! 0%nat
       = Some ("count" :: repeat (float_repr (inject_Z (Z.of_nat n))) 5).
Proof.
  intros H. set (data := dataset seed_value n).
  set (cols := map (fun c : string * list float64 => map csv_float (snd c))
                   (describe (items data))).
  exists (summary_csv (describe (items data))),
         (zip_with cons describe_index (csv_rows 8 cols)).
  split; [now apply summary_file|].
  assert (Hcols : cols =
            [ map csv_float (describe_column (map inject_Z (customer_id data)));
              map csv_float (describe_column (age data));
              map csv_float (describe_column (income data));
              map csv_float (describe_column (spending_score data));
              map csv_float (describe_column (map inject_Z (is_premium data))) ]).
  { unfold cols. rewrite describe_items. reflexivity. }
  split.
  { unfold summary_csv, to_csv. rewrite describe_names. fold cols.
    apply read_csv_csv_text; [apply summary_header_plain|].
    rewrite Hcols. apply (labelled_rows_plain describe_index).
    - apply describe_index_plain.
    - repeat (apply List.Forall_cons;
              [apply List.Forall_map, List.Forall_forall; intros x _;
               apply csv_float_plain|]).
      apply List.Forall_nil. }
  split; [reflexivity|].
  split.
  { rewrite Hcols. unfold describe_index, csv_rows.
    cbn [seq map zip_with length].
    repeat (apply List.Forall_cons; [reflexivity|]). apply List.Forall_nil. }
  split; [reflexivity|].
  rewrite Hcols. unfold describe_index, csv_rows.
  cbn [seq map zip_with lookup list_lookup]. unfold describe_column.
  cbn [map nth csv_float repeat]. unfold Qlen. rewrite !length_map.
  destruct (dataset_lengths seed_value n) as (Hc & Ha & Hx & Hs & _ & Hp).
  fold data in Hc, Ha, Hx, Hs, Hp. rewrite Hc, Ha, Hx, Hs, Hp. reflexivity.
Qed.

End CsvFiles.

(** X10 on the sample instances. *)
Lemma raw_data_records_are_the_rows_witness :
  exists (data : DataFrame) (text : string) (records : list (list string)),
    fst (script (RNG := sample_random) (FL := sample_floats)
                (ST := sample_stats) 42 n_samples fresh_world) = inr data
    /\ files (snd (script 42 n_samples fresh_world))
         !! "data/raw_customer_data.csv" = Some (Text text)
    /\ read_csv text = (column_names, records)
    /\ length records = n_samples
    /\ (forall i, (i < n_samples)%nat ->
          exists (id : Z) (a x s : Q) (r : string) (p : Z),
            customer_id data !! i = Some id
            /\ age data !! i = Some a
            /\ income data !! i = Some x
            /\ spending_score data !! i = Some s
            /\ region data !! i = Some r
            /\ is_premium data !! i = Some p
            /\ records !! i =
               Some [ str_Z id; float_repr a; float_repr x; float_repr s;
                      r; str_Z p ]).
Proof.
  apply (raw_data_records_are_the_rows (RNG := sample_random)
           (FL := sample_floats) (ST := sample_stats) 42 n_samples fresh_world).
  exact fresh_world_directories.
Defined.

(** X11 on the sample instances. *)
Lemma summary_csv_reads_back_witness :
  exists (text : string) (records : list (list string)),
    files (snd (script (RNG := sample_random) (FL := sample_floats)
                       (ST := sample_stats) 42 n_samples fresh_world))
      !! "results/summary_statistics.csv" = Some (Text text)
    /\ read_csv text = ("" :: numeric_column_names, records)
    /\ length records = 8%nat
    /\ Forall (fun r => length r = 6%nat) records
    /\ map (hd "") records = describe_index
    /\ records !! 0%nat
       = Some ("count" :: repeat (float_repr (inject_Z (Z.of_nat n_samples))) 5).
Proof.
  apply (summary_csv_reads_back (RNG := sample_random)
           (FL := sample_floats) (ST := sample_stats) 42 n_samples fresh_world).
  exact fresh_world_directories.
Defined.

(* ================================================================== *)
(** * The order of the summary statistics *)
(* ================================================================== *)

Lemma insert_sorted_perm (x : Q) (l : list Q) :
  Permutation (insert_sorted x l) (x :: l).
Proof.
  induction l as [|y l IH]; [reflexivity|].
  cbn [insert_sorted]. destruct (Qle_bool x y); [reflexivity|].
  rewrite IH. apply perm_swap.
Qed.

Lemma sort_values_perm (l : list Q) : Permutation (sort_values l) l.
Proof.
  induction l as [|x l IH]; [reflexivity|].
  cbn [sort_values fold_right]. fold (sort_values l).
  rewrite insert_sorted_perm. now apply perm_skip.
Qed.

Lemma insert_sorted_sorted (x : Q) (l : list Q) :
  StronglySorted Qle l -> StronglySorted Qle (insert_sorted x l).
Proof.
  induction l as [|y l IH]; intros Hs.
  - cbn [insert_sorted]. constructor; [constructor | apply List.Forall_nil].
  - inversion Hs as [|? ? Hl Hy]; subst. cbn [insert_sorted].
    destruct (Qle_bool x y) eqn:Hxy.
    + apply Qle_bool_iff in Hxy. constructor; [exact Hs|].
      apply List.Forall_cons; [exact Hxy|].
      eapply List.Forall_impl; [|exact Hy].
      intros z Hz. now apply Qle_trans with y.
    + assert (Hyx : (y <= x)%Q).
      { apply Qlt_le_weak, Qnot_le_lt. intros Hle.
        apply Qle_bool_iff in Hle. congruence. }
      constructor; [now apply IH|].
      apply List.Forall_forall. intros z Hz.
      apply (Permutation_in _ (insert_sorted_perm x l)) in Hz.
      destruct Hz as [<-|Hz]; [exact Hyx|].
      rewrite List.Forall_forall in Hy. now apply Hy.
Qed.

Lemma sort_values_sorted (l : list Q) : StronglySorted Qle (sort_values l).
Proof.
  induction l as [|x l IH]; [constructor|].
  cbn [sort_values fold_right]. now apply insert_sorted_sorted.
Qed.

(** In a sorted column a later position holds a value at least as
    large. *)
Lemma sorted_nth (s : list Q) (d : Q) (i j : nat) :
  StronglySorted Qle s -> (i <= j)%nat -> (j < length s)%nat ->
  (nth i s d <= nth j s d)%Q.
Proof.
  intros Hs. revert i j. induction Hs as [|x s Hs IH Hx]; intros i j Hij Hj.
  - cbn [length] in Hj. lia.
  - destruct j as [|j].
    + assert (i = 0%nat) as -> by lia. apply Qle_refl.
    + cbn [length] in Hj. destruct i as [|i].
      * cbn [nth]. rewrite List.Forall_forall in Hx. apply Hx, nth_In. lia.
      * cbn [nth]. apply IH; lia.
Qed.

Lemma last_cons_default (t : list Q) (y d : Q) :
  List.last (y :: t) d = List.last t y.
Proof.
  revert y d. induction t as [|z t IH]; intros y d; [reflexivity|].
  change (List.last (y :: z :: t) d) with (List.last (z :: t) d).
  now rewrite (IH z d), (IH z y).
Qed.

Lemma last_nth_default (t : list Q) (x0 d : Q) :
  List.last t x0 = nth (length t) (x0 :: t) d.
Proof.
  revert x0. induction t as [|y t IH]; intros x0; [reflexivity|].
  change (nth (length (y :: t)) (x0 :: y :: t) d)
    with (nth (length t) (y :: t) d).
  rewrite <- (IH y). apply last_cons_default.
Qed.

(** The interpolation of [quantile] at the fractional position [h] of
    a sorted column. *)
Definition interpolate (s : list Q) (x0 h : Q) : Q :=
  let lo := Z.to_nat (Qfloor h) in
  let a := nth lo s x0 in
  let b := nth (S lo) s a in
  (a + (b - a) * (h - inject_Z (Qfloor h)))%Q.

Lemma quantile_interpolate (q : Q) (xs : list Q) (x0 : Q) (t : list Q) :
  sort_values xs = x0 :: t ->
  quantile q xs = Finite (interpolate (x0 :: t) x0 ((Qlen xs - 1) * q)).
Proof. intros H. unfold quantile. rewrite H. reflexivity. Qed.

(** The value at a position, the positions past the end standing for
    the last one. *)
Definition capped (s : list Q) (x0 : Q) (i : nat) : Q :=
  nth (Nat.min i (length s - 1)) s x0.

Lemma capped_mono (s : list Q) (x0 : Q) (i j : nat) :
  StronglySorted Qle s -> s <> [] -> (i <= j)%nat ->
  (capped s x0 i <= capped s x0 j)%Q.
Proof.
  intros Hs Hne Hij. unfold capped.
  assert (0 < length s)%nat by (destruct s; [easy | cbn [length]; lia]).
  apply sorted_nth; [exact Hs | lia | lia].
Qed.

Lemma floor_position (s : list Q) (h : Q) :
  s <> [] -> (0 <= h)%Q -> (h <= inject_Z (Z.of_nat (length s)) - 1)%Q ->
  (Z.to_nat (Qfloor h) <= length s - 1)%nat
  /\ (0 <= Qfloor h)%Z
  /\ (0 <= h - inject_Z (Qfloor h))%Q
  /\ (h - inject_Z (Qfloor h) < 1)%Q.
Proof.
  intros Hne H0 Hh.
  assert (0 < length s)%nat by (destruct s; [easy | cbn [length]; lia]).
  assert (Hf0 : (0 <= Qfloor h)%Z).
  { change 0%Z with (Qfloor (inject_Z 0)). now apply Qfloor_resp_le. }
  assert (Hf1 : (Qfloor h <= Z.of_nat (length s) - 1)%Z).
  { rewrite <- (Qfloor_Z (Z.of_nat (length s) - 1)).
    apply Qfloor_resp_le. unfold Z.sub. rewrite inject_Z_plus. exact Hh. }
  pose proof (Qfloor_le h). pose proof (Qlt_floor h) as Hlt.
  rewrite inject_Z_plus in Hlt. change (inject_Z 1) with 1%Q in Hlt.
  repeat split; try lia; lra.
Qed.

(** The interpolated value lies between the values at the two
    positions around [h]. *)
Lemma interpolate_between (s : list Q) (x0 h : Q) :
  StronglySorted Qle s -> s <> [] ->
  (0 <= h)%Q -> (h <= inject_Z (Z.of_nat (length s)) - 1)%Q ->
  exists a b : Q,
    a = capped s x0 (Z.to_nat (Qfloor h))
    /\ b = capped s x0 (S (Z.to_nat (Qfloor h)))
    /\ (a <= b)%Q
    /\ interpolate s x0 h = (a + (b - a) * (h - inject_Z (Qfloor h)))%Q.
Proof.
  intros Hs Hne H0 Hh.
  destruct (floor_position s h Hne H0 Hh) as (Hlo & _ & _ & _).
  set (lo := Z.to_nat (Qfloor h)) in *.
  exists (capped s x0 lo), (capped s x0 (S lo)).
  split; [reflexivity|]. split; [reflexivity|].
  split; [apply capped_mono; [assumption .. | lia]|].
  unfold interpolate. fold lo. cbv zeta. unfold capped.
  rewrite (Nat.min_l lo) by exact Hlo.
  destruct (Nat.lt_ge_cases (S lo) (length s)) as [Hin|Hout].
  - rewrite (Nat.min_l (S lo)) by lia.
    now rewrite (nth_indep s (nth lo s x0) x0 Hin).
  - rewrite (nth_overflow s _ Hout).
    replace (Nat.min (S lo) (length s - 1)) with lo by lia. reflexivity.
Qed.

Lemma interpolate_range (s : list Q) (x0 h : Q) :
  StronglySorted Qle s -> s <> [] ->
  (0 <= h)%Q -> (h <= inject_Z (Z.of_nat (length s)) - 1)%Q ->
  (capped s x0 (Z.to_nat (Qfloor h)) <= interpolate s x0 h)%Q
  /\ (interpolate s x0 h <= capped s x0 (S (Z.to_nat (Qfloor h))))%Q.
Proof.
  intros Hs Hne H0 Hh.
  destruct (interpolate_between s x0 h Hs Hne H0 Hh) as (a & b & <- & <- & Hab & ->).
  destruct (floor_position s h Hne H0 Hh) as (_ & _ & Hf0 & Hf1).
  split; nra.
Qed.

(** The interpolated value grows with the position. *)
Lemma interpolate_mono (s : list Q) (x0 h1 h2 : Q) :
  StronglySorted Qle s -> s <> [] ->
  (0 <= h1)%Q -> (h1 <= h2)%Q -> (h2 <= inject_Z (Z.of_nat (length s)) - 1)%Q ->
  (interpolate s x0 h1 <= interpolate s x0 h2)%Q.
Proof.
  intros Hs Hne H0 H12 Hh.
  assert (Hh1 : (h1 <= inject_Z (Z.of_nat (length s)) - 1)%Q) by lra.
  assert (H02 : (0 <= h2)%Q) by lra.
  pose proof (Qfloor_resp_le _ _ H12) as Hfl.
  destruct (floor_position s h1 Hne H0 Hh1) as (_ & Hz1 & Hf1 & _).
  destruct (floor_position s h2 Hne H02 Hh) as (_ & Hz2 & Hf2 & Hg2).
  destruct (Z.eq_dec (Qfloor h1) (Qfloor h2)) as [Heq|Hneq].
  - destruct (interpolate_between s x0 h1 Hs Hne H0 Hh1)
      as (a & b & Ha & Hb & Hab & ->).
    destruct (interpolate_between s x0 h2 Hs Hne H02 Hh)
      as (a' & b' & Ha' & Hb' & _ & ->).
    rewrite <- Heq in Ha', Hb'. subst a' b'. rewrite <- Ha, <- Hb.
    rewrite <- Heq. nra.
  - destruct (interpolate_range s x0 h1 Hs Hne H0 Hh1) as [_ Hup].
    destruct (interpolate_range s x0 h2 Hs Hne H02 Hh) as [Hlow _].
    apply Qle_trans with (capped s x0 (S (Z.to_nat (Qfloor h1))));
      [exact Hup|].
    apply Qle_trans with (capped s x0 (Z.to_nat (Qfloor h2)));
      [|exact Hlow].
    apply capped_mono; [assumption .. | lia].
Qed.

Section SummaryOrder.

Context {FL : FloatLib}.

(** The statistics of a column that is not empty: all but the standard
    deviation are numbers; the minimum and the maximum are values of
    the column and bound it; the quartiles and the mean lie between
    them, the quartiles in their order. *)
Lemma describe_column_ordered (xs : list Q) :
  xs <> [] ->
  exists m mn q1 q2 q3 mx : Q,
    describe_column xs =
    [ Finite (Qlen xs); Finite m; std xs; Finite mn; Finite q1; Finite q2;
      Finite q3; Finite mx ]
    /\ In mn xs /\ In mx xs
    /\ (forall x, In x xs -> (mn <= x)%Q /\ (x <= mx)%Q)
    /\ (mn <= q1)%Q /\ (q1 <= q2)%Q /\ (q2 <= q3)%Q /\ (q3 <= mx)%Q
    /\ (mn <= m)%Q /\ (m <= mx)%Q.
Proof.
  intros Hne.
  pose proof (sort_values_perm xs) as Hperm.
  pose proof (sort_values_sorted xs) as Hsorted.
  destruct (sort_values xs) as [|x0 t] eqn:Hsort.
  { apply Permutation_nil in Hperm. congruence. }
  set (s := x0 :: t) in *.
  assert (Hs_ne : s <> []) by discriminate.
  assert (Hlen : length s = length xs) by now apply Permutation_length.
  set (h := fun q : Q => ((Qlen xs - 1) * q)%Q).
  assert (Hpos : (0 <= Qlen xs - 1)%Q).
  { unfold Qlen. rewrite <- Hlen. unfold s. cbn [length].
    rewrite Nat2Z.inj_succ. unfold Z.succ. rewrite inject_Z_plus.
    change (inject_Z 1) with 1%Q.
    assert (0 <= inject_Z (Z.of_nat (length t)))%Q; [|lra].
    change 0%Q with (inject_Z 0). rewrite <- Zle_Qle. lia. }
  assert (Hh : forall q, (0 <= q)%Q -> (q <= 1)%Q ->
             (0 <= h q)%Q /\ (h q <= inject_Z (Z.of_nat (length s)) - 1)%Q).
  { intros q Hq0 Hq1. unfold h. rewrite Hlen. fold (Qlen xs). split; nra. }
  assert (Hmn : forall x, In x xs -> (x0 <= x)%Q /\ (x <= List.last t x0)%Q).
  { intros x Hx. apply (Permutation_in _ (Permutation_sym Hperm)) in Hx.
    destruct (In_nth s x x0 Hx) as (i & Hi & <-). split.
    - change x0 with (nth 0 s x0) at 1. apply sorted_nth; [exact Hsorted|lia..].
    - rewrite (last_nth_default t x0 x0). fold s.
      apply sorted_nth; [exact Hsorted | unfold s in Hi |- *; cbn [length] in *; lia
                        | unfold s; cbn [length]; lia]. }
  assert (Hall : Forall (fun x => (x0 <= x)%Q /\ (x <= List.last t x0)%Q) xs)
    by now apply List.Forall_forall.
  destruct (mean_bounds _ _ xs Hne Hall) as (m & Hm & Hm_lo & Hm_hi).
  exists m, x0, (interpolate s x0 (h (1 # 4))), (interpolate s x0 (h (1 # 2))),
         (interpolate s x0 (h (3 # 4))), (List.last t x0).
  split.
  { unfold describe_column, Series_min, Series_max.
    rewrite !(quantile_interpolate _ xs x0 t Hsort), Hsort, Hm. reflexivity. }
  split.
  { apply (Permutation_in _ Hperm). now left. }
  split.
  { apply (Permutation_in _ Hperm). rewrite (last_nth_default t x0 x0).
    apply nth_In. unfold s. cbn [length]. lia. }
  split; [exact Hmn|].
  destruct (Hh (1 # 4)) as [Ha0 Ha1]; [lra | lra |].
  destruct (Hh (1 # 2)) as [Hb0 Hb1]; [lra | lra |].
  destruct (Hh (3 # 4)) as [Hc0 Hc1]; [lra | lra |].
  assert (H12 : (h (1 # 4) <= h (1 # 2))%Q) by (unfold h; nra).
  assert (H23 : (h (1 # 2) <= h (3 # 4))%Q) by (unfold h; nra).
  split; [|split; [|split; [|split; [|split]]]].
  - destruct (interpolate_range s x0 (h (1 # 4)) Hsorted Hs_ne Ha0 Ha1)
      as [Hlow _].
    apply Qle_trans with (capped s x0 (Z.to_nat (Qfloor (h (1 # 4)))));
      [|exact Hlow].
    change x0 with (capped s x0 0) at 1.
    apply capped_mono; [assumption .. | lia].
  - now apply interpolate_mono.
  - now apply interpolate_mono.
  - destruct (interpolate_range s x0 (h (3 # 4)) Hsorted Hs_ne Hc0 Hc1)
      as [_ Hup].
    apply Qle_trans with (capped s x0 (S (Z.to_nat (Qfloor (h (3 # 4))))));
      [exact Hup|].
    rewrite (last_nth_default t x0 x0). fold s. unfold capped.
    apply sorted_nth; [exact Hsorted | |]; unfold s; cbn [length]; lia.
  - exact Hm_lo.
  - exact Hm_hi.
Qed.

End SummaryOrder.

Section SummaryFile.

Context {RNG : NumpyRandom} {FL : FloatLib} {ST : ScipyStats}.

Lemma age_is_numeric (data : DataFrame) :
  In ("age", age data) (numeric_only (items data)).
Proof. rewrite numeric_only_items. right. left. reflexivity. Qed.

(** X12.  For every numeric column of a table with at least one row,
    the summary file holds, under the name of the column, the number of
    rows, the mean, the standard deviation, the minimum, the three
    quartiles and the maximum, in this order; the minimum and the
    maximum are values of the column and bound all of them, the
    quartiles lie between them in increasing order, and so does the
    mean. *)
Theorem summary_statistics_are_ordered (seed_value : Z) (n : nat) (w : World)
    (name : string) (xs : list Q) :
  (1 <= n)%nat ->
  directories_exist w ->
  In (name, xs) (numeric_only (items (dataset seed_value n))) ->
  exists (summary : list (string * list float64)) (m mn q1 q2 q3 mx : Q)
         (deviation : float64),
    files (snd (script seed_value n w)) !! "results/summary_statistics.csv"
    = Some (Text (summary_csv summary))
    /\ In (name, [ Finite (inject_Z (Z.of_nat n)); Finite m; deviation;
                   Finite mn; Finite q1; Finite q2; Finite q3; Finite mx ])
          summary
    /\ In mn xs /\ In mx xs
    /\ (forall x, In x xs -> (mn <= x)%Q /\ (x <= mx)%Q)
    /\ (mn <= q1)%Q /\ (q1 <= q2)%Q /\ (q2 <= q3)%Q /\ (q3 <= mx)%Q
    /\ (mn <= m)%Q /\ (m <= mx)%Q.
Proof.
  intros Hn H Hin.
  assert (Hlen : length xs = n).
  { pose proof (dataset_numeric_lengths seed_value n) as Hall.
    rewrite List.Forall_forall in Hall. apply Hall.
    now apply (in_map snd) in Hin. }
  assert (Hne : xs <> []).
  { intros ->. cbn [length] in Hlen. lia. }
  destruct (describe_column_ordered xs Hne)
    as (m & mn & q1 & q2 & q3 & mx & Hstats & Hrest).
  exists (describe (items (dataset seed_value n))), m, mn, q1, q2, q3, mx,
         (std xs).
  split; [now apply summary_file|].
  split; [|exact Hrest].
  unfold Qlen in Hstats. rewrite Hlen in Hstats. rewrite <- Hstats.
  unfold describe.
  now apply (in_map (fun c : string * list Q =>
                       (fst c, describe_column (snd c)))) in Hin.
Qed.


End SummaryFile.

(** X12 for the ages of the sample run. *)
Lemma summary_statistics_are_ordered_witness :
  exists (summary : list (string * list float64)) (m mn q1 q2 q3 mx : Q)
         (deviation : float64),
    files (snd (script (RNG := sample_random) (FL := sample_floats)
                       (ST := sample_stats) 42 n_samples fresh_world))
      !! "results/summary_statistics.csv"
    = Some (Text (summary_csv summary))
    /\ In ("age", [ Finite (inject_Z (Z.of_nat n_samples)); Finite m; deviation;
                    Finite mn; Finite q1; Finite q2; Finite q3; Finite mx ])
          summary
    /\ In mn (age (dataset 42 n_samples))
    /\ In mx (age (dataset 42 n_samples))
    /\ (forall x, In x (age (dataset 42 n_samples)) ->
          (mn <= x)%Q /\ (x <= mx)%Q)
    /\ (mn <= q1)%Q /\ (q1 <= q2)%Q /\ (q2 <= q3)%Q /\ (q3 <= mx)%Q
    /\ (mn <= m)%Q /\ (m <= mx)%Q.
Proof.
  apply (summary_statistics_are_ordered (RNG := sample_random)
           (FL := sample_floats) (ST := sample_stats) 42 n_samples fresh_world
           "age" (age (dataset 42 n_samples))).
  - unfold n_samples. lia.
  - exact fresh_world_directories.
  - apply age_is_numeric.
Defined.

